(** * svsal-factory: node classification and citetrails

    A shallow embedding of [api/v1/xutils.py] and [api/v1/docs/analysis.py].

    The Python code works on lxml trees.  An lxml node knows its parent and
    its siblings, so a node is modelled as a position in a tree (a subtree
    together with the path of enclosing elements).  XPath expressions are
    embedded as functions on such positions, one combinator per XPath
    construct, following XPath 1.0.  Python exceptions and the [config]
    object held by an analysis are threaded by a small state-and-error
    monad. *)

From Stdlib Require Import Ascii DecimalNat DecimalString NArith.
From stdpp Require Import base strings list gmap.

Open Scope string_scope.
Open Scope list_scope.
Set Warnings "-register-all".

(** * The XML data model *)

(** An expanded name: namespace URI and local part.  The empty URI stands
    for "no namespace". *)
Record qname := QName { ns : string; local : string }.

Definition qname_eqb (a b : qname) : bool :=
  String.eqb (ns a) (ns b) && String.eqb (local a) (local b).

(** What an element carries besides its children, as lxml has it: [tag],
    [attrib], the [text] before the first child and the [tail] after the
    element. *)
Record header := Header {
  tag : qname;
  attrib : list (qname * string);
  text : option string;
  tail : option string
}.

(** The objects of an lxml tree: instances of [etree._Element] and of its
    subclasses [etree._Comment] and [etree._ProcessingInstruction].
    Documents are taken with their entities resolved: the fourth subclass,
    [etree._Entity], is not modelled. *)
Inductive tree :=
| Element (h : header) (children : list tree)
| Comment (content : string) (ctail : option string)
| ProcessingInstruction (target content : string) (ptail : option string).

(** One level of enclosing element: the element without its children, the
    siblings to the left of the hole (nearest first) and those to its
    right. *)
Record frame := Frame {
  fhead : header;
  lefts : list tree;
  rights : list tree
}.

(** A node: the subtree it roots and the enclosing elements, innermost
    first.  An empty context is a child of the document node. *)
Record node := Node { focus : tree; context : list frame }.

Definition plug (f : frame) (t : tree) : tree :=
  Element (fhead f) (rev_append (lefts f) (t :: rights f)).

(** * XPath axes, in axis order *)

Definition axis_self (n : node) : list node := [n].

(** [ancestor::] is a reverse axis: nearest ancestor first. *)
Fixpoint ancestors_from (t : tree) (c : list frame) : list node :=
  match c with
  | [] => []
  | f :: c' => let p := plug f t in Node p c' :: ancestors_from p c'
  end.

Definition axis_ancestor (n : node) : list node :=
  ancestors_from (focus n) (context n).

(** [preceding-sibling::] is a reverse axis: nearest sibling first. *)
Fixpoint siblings_before (h : header) (ls rs : list tree) (c : list frame)
  : list node :=
  match ls with
  | [] => []
  | l :: ls' => Node l (Frame h ls' rs :: c) :: siblings_before h ls' (l :: rs) c
  end.

Definition axis_preceding_sibling (n : node) : list node :=
  match context n with
  | [] => []
  | f :: c => siblings_before (fhead f) (lefts f) (focus n :: rights f) c
  end.

(** [child::] is a forward axis: document order. *)
Fixpoint children_from (h : header) (ls rs : list tree) (c : list frame)
  : list node :=
  match rs with
  | [] => []
  | r :: rs' => Node r (Frame h ls rs' :: c) :: children_from h (r :: ls) rs' c
  end.

Definition axis_child (n : node) : list node :=
  match focus n with
  | Element h ch => children_from h [] ch (context n)
  | _ => []
  end.

(** [attribute::name], as the list of values lxml hands back. *)
Definition axis_attribute (name : qname) (n : node) : list string :=
  match focus n with
  | Element h _ =>
      map snd (List.filter (fun kv => qname_eqb (fst kv) name) (attrib h))
  | _ => []
  end.

(** The [tail] of a tree object. *)
Definition tail_of (t : tree) : option string :=
  match t with
  | Element h _ => tail h
  | Comment _ tl => tl
  | ProcessingInstruction _ _ tl => tl
  end.

(** [child::text()], as the list of strings lxml hands back: the [text] of
    the element, then the [tail] of each child. *)
Definition child_text (n : node) : list string :=
  match focus n with
  | Element h ch => option_list (text h) ++ flat_map (fun c => option_list (tail_of c)) ch
  | _ => []
  end.

(** * Namespaces ([xutils.py], NAMESPACES) *)

Definition basic_ns : gmap string string :=
  <["xi" := "http://www.w3.org/2001/XInclude"]>
  (<["xml" := "http://www.w3.org/XML/1998/namespace"]> ∅).

Definition tei_ns : gmap string string :=
  <["tei" := "http://www.tei-c.org/ns/1.0"]> ∅.

Definition dts_ns : gmap string string :=
  <["dts" := "https://w3id.org/dts/api#"]> ∅.

(** [dict.update]: the entries of the argument win. *)
Definition dict_update (d other : gmap string string) : gmap string string :=
  other ∪ d.

Definition combined_ns : gmap string string :=
  dict_update (dict_update ∅ basic_ns) tei_ns.

Definition xml_ns : gmap string string := combined_ns.

(** * XPath node tests and steps *)

(** A name test [prefix:local] on an axis whose principal node type is
    element: only elements pass, and their expanded name must be the one the
    prefix resolves to in [xml_ns].  (An unbound prefix is an evaluation
    error in lxml; every prefix used below is bound, see [xml_ns_tei] and
    [xml_ns_xml].) *)
Definition expand (prefix loc : string) : option qname :=
  match xml_ns !! prefix with
  | Some uri => Some (QName uri loc)
  | None => None
  end.

Definition name_test (prefix loc : string) (n : node) : bool :=
  match focus n, expand prefix loc with
  | Element h _, Some q => qname_eqb (tag h) q
  | _, _ => false
  end.

(** The node test [*]: any element, and nothing else. *)
Definition any_element (n : node) : bool :=
  match focus n with
  | Element _ _ => true
  | _ => false
  end.

(** The node tests [comment()] and [processing-instruction()]. *)
Definition comment_test (n : node) : bool :=
  match focus n with
  | Comment _ _ => true
  | _ => false
  end.

Definition processing_instruction_test (n : node) : bool :=
  match focus n with
  | ProcessingInstruction _ _ _ => true
  | _ => false
  end.

(** [axis::test], in axis order. *)
Definition step (axis : node -> list node) (test : node -> bool) (n : node)
  : list node :=
  List.filter test (axis n).

(** [e[p]]. *)
Definition where_ (e : node -> list node) (p : node -> bool) (n : node)
  : list node :=
  List.filter p (e n).

(** [e[1]], the first node in axis order. *)
Definition first (e : node -> list node) (n : node) : list node :=
  take 1 (e n).

(** [e1/e2]. *)
Definition path_ {A} (e1 : node -> list node) (e2 : node -> list A) (n : node)
  : list A :=
  flat_map e2 (e1 n).

(** XPath [boolean()] of a node-set. *)
Definition boolean {A} (l : list A) : bool :=
  match l with
  | [] => false
  | _ :: _ => true
  end.

(** An attribute named without a prefix is in no namespace. *)
Definition attr_plain (loc : string) : qname := QName "" loc.

Definition attr_prefixed (prefix loc : string) : qname :=
  match expand prefix loc with
  | Some q => q
  | None => QName "" ""
  end.

(** * Python values and exceptions *)

(** The values the modelled functions hand around: [None] and [str]. *)
Inductive pyval :=
| PyNone
| PyStr (s : string).

Inductive exn :=
| TypeError
| ValueError
| IndexError
| AttributeError
| KeyError.

Inductive result (A : Type) :=
| Ok (a : A)
| Raise (e : exn).
Arguments Ok {A} a.
Arguments Raise {A} e.

#[export] Instance result_ret : MRet result := fun A a => Ok a.

#[export] Instance result_bind : MBind result := fun A B k r =>
  match r with
  | Ok a => k a
  | Raise e => Raise e
  end.

#[export] Instance result_fmap : FMap result := fun A B f r =>
  match r with
  | Ok a => Ok (f a)
  | Raise e => Raise e
  end.

(** [a + b] on these values: defined on two strings only. *)
Definition py_add (a b : pyval) : result pyval :=
  match a, b with
  | PyStr x, PyStr y => Ok (PyStr (x +:+ y))
  | _, _ => Raise TypeError
  end.

(** [l[i]] on a list. *)
Definition py_index {A} (l : list A) (i : nat) : result A :=
  match l !! i with
  | Some x => Ok x
  | None => Raise IndexError
  end.

(** [[x for x in l if p(x)]], where [p] may raise. *)
Fixpoint comprehension {A} (p : A -> result bool) (l : list A)
  : result (list A) :=
  match l with
  | [] => Ok []
  | x :: l' =>
      b ← p x;
      r ← comprehension p l';
      Ok (if b : bool then x :: r else r)
  end.

(** [str(n)] for a non-negative [int]: its decimal digits. *)
Definition str_int (n : nat) : string :=
  NilZero.string_of_uint (Nat.to_uint n).

(** Truth value of a [str]: non-empty. *)
Definition str_truthy (s : string) : bool :=
  match s with
  | EmptyString => false
  | String _ _ => true
  end.

(** What evaluating an XPath expression returns: a [bool] for a boolean
    expression, a list of nodes for a node-set expression. *)
Inductive xpath_result :=
| XBool (b : bool)
| XNodes (l : list node).

(** Truth value of such a result in an [if]: the [bool] itself, or whether
    the list is non-empty. *)
Definition truthy (r : xpath_result) : bool :=
  match r with
  | XBool b => b
  | XNodes l => boolean l
  end.

(** Results of a reverse-axis step come back in document order. *)
Definition document_order_of_reverse (l : list node) : list node := rev l.

(** Calling a compiled [etree.XPath] object on a node.  lxml evaluates it
    with an element as context node and raises [ValueError] on any other
    node; the note at [is_element] in [xutils.py] records this for
    processing instructions.  The method [node.xpath(...)] has no such
    check and is modelled by applying the expression. *)
Definition xpath_call {A} (e : node -> A) (n : node) : result A :=
  if any_element n then Ok (e n) else Raise ValueError.

(** * [xutils.py], UTIL FUNCTIONS *)

(** [is_comment = etree.XPath('boolean(self::comment())')] *)
Definition is_comment (n : node) : result bool :=
  xpath_call (fun m => boolean (step axis_self comment_test m)) n.

(** [is_processing_instruction =
     etree.XPath('boolean(self::processing-instruction())')] *)
Definition is_processing_instruction (n : node) : result bool :=
  xpath_call
    (fun m => boolean (step axis_self processing_instruction_test m)) n.

(** [isinstance] against the lxml classes: [_Comment] and
    [_ProcessingInstruction] derive from [_Element]. *)
Definition isinstance_Element (n : node) : bool :=
  match focus n with
  | Element _ _ | Comment _ _ | ProcessingInstruction _ _ _ => true
  end.

Definition isinstance_ProcessingInstruction (n : node) : bool :=
  match focus n with
  | ProcessingInstruction _ _ _ => true
  | _ => false
  end.

Definition isinstance_Comment (n : node) : bool :=
  match focus n with
  | Comment _ _ => true
  | _ => false
  end.

Definition is_element (n : node) : bool :=
  isinstance_Element n
  && negb (isinstance_ProcessingInstruction n || isinstance_Comment n).

(** [exists(elem, xpath_expr)]: [elem.xpath('boolean(' + xpath_expr + ')')].
    The expression is given as the node-set function it denotes. *)
Definition exists_ (elem : node) (xpath_expr : node -> list node) : bool :=
  boolean (xpath_expr elem).

(** Python strings are sequences of Unicode code points. *)
Definition ustring := list N.

(** The characters the [re] class [\s] matches in a [str] pattern. *)
Definition is_whitespace (c : N) : bool :=
  (((9 <=? c) && (c <=? 13))
   || ((28 <=? c) && (c <=? 32))
   || (c =? 133) || (c =? 160) || (c =? 5760)
   || ((8192 <=? c) && (c <=? 8202))
   || (c =? 8232) || (c =? 8233) || (c =? 8239) || (c =? 8287)
   || (c =? 12288))%N.

(** [re.match(r'\S', string)]: the pattern is tried at the start of the
    string only.  The result is the matched span, or [None]. *)
Definition re_match_nonspace (s : ustring) : option (nat * nat) :=
  match s with
  | c :: _ => if is_whitespace c then None else Some (0, 1)%nat
  | [] => None
  end.

(** [bool(m)] for [m] a match object or [None]. *)
Definition is_more_than_whitespace (s : ustring) : bool :=
  match re_match_nonspace s with
  | Some _ => true
  | None => false
  end.

Definition get_xml_id (n : node) : string :=
  let xml_id := axis_attribute (attr_prefixed "xml" "id") n in
  if (length xml_id =? 1)%nat
  then match xml_id with v :: _ => v | [] => "" end
  else "".

(** [node.get(key)] on an element: the value of the attribute, or [None].
    A comment has no attributes.  The pseudo-attributes that lxml reads out
    of the text of a processing instruction are not modelled; the callers
    use the value on elements only. *)
Definition node_get (n : node) (key : string) : pyval :=
  match focus n with
  | Element h _ =>
      match List.find (fun kv => qname_eqb (fst kv) (attr_plain key))
              (attrib h) with
      | Some kv => PyStr (snd kv)
      | None => PyNone
      end
  | _ => PyNone
  end.

(** [@type] as a predicate. *)
Definition has_attribute (name : qname) (n : node) : bool :=
  boolean (axis_attribute name n).

Definition get_list_type (n : node) : result pyval :=
  if exists_ n
       (where_ (step axis_self (name_test "tei" "list"))
               (has_attribute (attr_plain "type")))
  then Ok (node_get n "type")
  else if exists_ n
       (where_ (step axis_ancestor (name_test "tei" "list"))
               (has_attribute (attr_plain "type")))
  then
    v ← py_index
          (path_ (first (where_ (step axis_ancestor (name_test "tei" "list"))
                                (has_attribute (attr_plain "type"))))
                 (axis_attribute (attr_plain "type")) n) 0;
    Ok (PyStr v)
  else Ok (PyStr "").

(** ** The rest of [xutils.py] *)

(** What [flatten] iterates over: lists, [None], and anything else (an
    lxml element counts as anything else: it is not a [list]). *)
Inductive pyobj (A : Type) :=
| PList (l : list (pyobj A))
| PNone
| PLeaf (a : A).
Arguments PList {A} l.
Arguments PNone {A}.
Arguments PLeaf {A} a.

(** What [flatten] yields for one item [el] of its argument. *)
Fixpoint flatten_item {A} (el : pyobj A) : list A :=
  match el with
  | PList l => flat_map flatten_item l
  | PNone => []
  | PLeaf a => [a]
  end.

(** [flatten(l)], as the list of the values the generator yields. *)
Definition flatten {A} (l : list (pyobj A)) : list A :=
  flat_map flatten_item l.

(** [text.split()]: the maximal runs of characters that are not whitespace.
    [word] is the run being read. *)
Fixpoint split_from (word : ustring) (s : ustring) : list ustring :=
  match s with
  | [] => match word with [] => [] | _ :: _ => [word] end
  | c :: s' =>
      if is_whitespace c
      then match word with
           | [] => split_from [] s'
           | _ :: _ => word :: split_from [] s'
           end
      else split_from (word ++ [c]) s'
  end.

Definition split (s : ustring) : list ustring := split_from [] s.

(** [sep.join(words)]. *)
Fixpoint join (sep : ustring) (words : list ustring) : ustring :=
  match words with
  | [] => []
  | [w] => w
  | w :: rest => w ++ sep ++ join sep rest
  end.

(** [' '.join(text.split())] *)
Definition normalize_space (text : ustring) : ustring :=
  join [32%N] (split text).

(** [elem.set(name, value)] on the attributes: the value of an attribute
    that is there is replaced in place, a new attribute goes to the end. *)
Fixpoint attrib_set (name : qname) (value : string)
    (l : list (qname * string)) : list (qname * string) :=
  match l with
  | [] => [(name, value)]
  | kv :: l' =>
      if qname_eqb (fst kv) name then (fst kv, value) :: l'
      else kv :: attrib_set name value l'
  end.

(** [elem.items()]: comments and processing instructions have none. *)
Definition items (t : tree) : list (qname * string) :=
  match t with
  | Element h _ => attrib h
  | _ => []
  end.

(** [elem.set(name, value)]: comments and processing instructions refuse
    it. *)
Definition set_attribute (t : tree) (name : qname) (value : string)
  : result tree :=
  match t with
  | Element h ch =>
      Ok (Element (Header (tag h) (attrib_set name value (attrib h))
                          (text h) (tail h)) ch)
  | _ => Raise TypeError
  end.

(** [copy_attributes(from_elem, to_elem)]; the result is [to_elem] as the
    loop leaves it. *)
Definition copy_attributes (from_elem to_elem : tree) : result tree :=
  foldl (fun acc kv => t ← acc; set_attribute t (fst kv) (snd kv))
        (Ok to_elem) (items from_elem).

(** The root element of the document a node lies in. *)
Fixpoint root_tree (t : tree) (c : list frame) : tree :=
  match c with
  | [] => t
  | f :: c' => root_tree (plug f t) c'
  end.

(** [descendant-or-self::node()], in document order. *)
Fixpoint descendants_or_self (t : tree) (c : list frame) : list node :=
  Node t c ::
  match t with
  | Element h ch =>
      (fix go (ls rs : list tree) : list node :=
         match rs with
         | [] => []
         | r :: rs' =>
             descendants_or_self r (Frame h ls rs' :: c) ++ go (r :: ls) rs'
         end) [] ch
  | _ => []
  end.

(** [//*]: every element of the document, in document order. *)
Definition all_elements (n : node) : list node :=
  List.filter any_element
    (descendants_or_self (root_tree (focus n) (context n)) []).

(** [get_node_by_xmlid = etree.XPath('//*[@xml:id = $xmlid]')], called as
    [get_node_by_xmlid(node, xmlid=...)]. *)
Definition get_node_by_xmlid (n : node) (xmlid : string)
  : result (list node) :=
  xpath_call
    (where_ all_elements
       (fun m => existsb (String.eqb xmlid)
                   (axis_attribute (attr_prefixed "xml" "id") m))) n.

(** A string as [normalize_space] leaves it: nothing, or words with one
    space between them. *)
Fixpoint single_spaced_from (after_space : bool) (s : ustring) : bool :=
  match s with
  | [] => negb after_space
  | c :: s' =>
      if is_whitespace c
      then (c =? 32)%N && negb after_space && single_spaced_from true s'
      else single_spaced_from false s'
  end.

Definition single_spaced (s : ustring) : bool :=
  match s with
  | [] => true
  | _ :: _ => single_spaced_from true s
  end.

(** A word: a non-empty string without whitespace. *)
Definition is_word (w : ustring) : Prop :=
  w <> [] /\ Forall (fun c => is_whitespace c = false) w.

(** The value bound to [name] by the last entry of [l] that names it. *)
Definition last_value (name : qname) (l : list (qname * string))
  : option string :=
  snd <$> List.find (fun kv => qname_eqb (fst kv) name) (rev l).

(** The value bound to [name] by the first entry of [l] that names it. *)
Definition first_value (name : qname) (l : list (qname * string))
  : option string :=
  snd <$> List.find (fun kv => qname_eqb (fst kv) name) l.

(** * [analysis.py]: node types *)

(** The classifying half of the abstract class [DocAnalysis]: the two
    abstract predicates.  They return what the compiled XPath returns, or
    raise. *)
Class NodeTypes (V : Type) := {
  is_structural_node : V -> node -> result xpath_result;
  is_basic_node : V -> node -> result xpath_result
}.

(** [DocAnalysis.get_node_type], inherited by every subclass. *)
Definition get_node_type `{NodeTypes V} (self : V) (n : node) : result string :=
  s ← is_structural_node self n;
  if truthy s then Ok "structural"
  else
    b ← is_basic_node self n;
    if truthy b then Ok "basic" else Ok "".

(** [DocAnalysis.get_citetrail_ancestors]; [GuidelinesAnalysis] repeats
    it word for word. *)
Definition get_citetrail_ancestors `{NodeTypes V} (self : V) (n : node)
  : result (list node) :=
  l ← comprehension (fun anc => truthy <$> is_structural_node self anc)
         (document_order_of_reverse (step axis_ancestor any_element n));
  Ok (rev l).

(** An object of one of the three classes holds its [config] and nothing
    else; the state of that [config] is threaded by the monad below. *)
Inductive GuidelinesAnalysis := Guidelines.
Inductive ProjectmembersAnalysis := Projectmembers.
Inductive SpecialcharsAnalysis := Specialchars.

Module GuidelinesGrammar.

(** [self::tei:div and ancestor::tei:text] *)
Definition structural_node_def (n : node) : bool :=
  boolean (step axis_self (name_test "tei" "div") n)
  && boolean (step axis_ancestor (name_test "tei" "text") n).

(** [self::tei:p or self::tei:head or self::tei:list] *)
Definition leaf (n : node) : bool :=
  boolean (step axis_self (name_test "tei" "p") n)
  || boolean (step axis_self (name_test "tei" "head") n)
  || boolean (step axis_self (name_test "tei" "list") n).

(** [( ... ) and not(ancestor::*[ ... ])] *)
Definition basic_node_def (n : node) : bool :=
  leaf n && negb (boolean (where_ (step axis_ancestor any_element) leaf n)).

Definition is_structural_node_xpath (n : node) : xpath_result :=
  XBool (structural_node_def n).

(** [basic_node_def + ' and ancestor::*[' + structural_node_def + ']'] *)
Definition is_basic_node_xpath (n : node) : xpath_result :=
  XBool (basic_node_def n
         && boolean (where_ (step axis_ancestor any_element)
                            structural_node_def n)).

End GuidelinesGrammar.

Module ProjectmembersGrammar.

(** [self::tei:listPerson[ancestor::tei:text]], a node-set. *)
Definition structural_node_def (n : node) : list node :=
  where_ (step axis_self (name_test "tei" "listPerson"))
    (fun m => boolean (step axis_ancestor (name_test "tei" "text") m)) n.

(** [self::tei:head or self::tei:org or self::tei:person] *)
Definition leaf (n : node) : bool :=
  boolean (step axis_self (name_test "tei" "head") n)
  || boolean (step axis_self (name_test "tei" "org") n)
  || boolean (step axis_self (name_test "tei" "person") n).

Definition basic_node_def (n : node) : bool :=
  leaf n && negb (boolean (where_ (step axis_ancestor any_element) leaf n)).

Definition is_structural_node_xpath (n : node) : xpath_result :=
  XNodes (structural_node_def n).

Definition is_basic_node_xpath (n : node) : xpath_result :=
  XBool (basic_node_def n
         && boolean (where_ (step axis_ancestor any_element)
                            (fun m => boolean (structural_node_def m)) n)).

End ProjectmembersGrammar.

Module SpecialcharsGrammar.

(** [self::tei:charDecl[ancestor::tei:teiHeader]], a node-set. *)
Definition structural_node_def (n : node) : list node :=
  where_ (step axis_self (name_test "tei" "charDecl"))
    (fun m => boolean (step axis_ancestor (name_test "tei" "teiHeader") m)) n.

(** [self::tei:char], a node-set. *)
Definition basic_node_def (n : node) : list node :=
  step axis_self (name_test "tei" "char") n.

Definition is_structural_node_xpath (n : node) : xpath_result :=
  XNodes (structural_node_def n).

Definition is_basic_node_xpath (n : node) : xpath_result :=
  XBool (boolean (basic_node_def n)
         && boolean (where_ (step axis_ancestor any_element)
                            (fun m => boolean (structural_node_def m)) n)).

End SpecialcharsGrammar.

#[export] Instance GuidelinesAnalysis_NodeTypes : NodeTypes GuidelinesAnalysis := {
  is_structural_node _ := xpath_call GuidelinesGrammar.is_structural_node_xpath;
  is_basic_node _ := xpath_call GuidelinesGrammar.is_basic_node_xpath
}.

#[export] Instance ProjectmembersAnalysis_NodeTypes
  : NodeTypes ProjectmembersAnalysis := {
  is_structural_node _ :=
    xpath_call ProjectmembersGrammar.is_structural_node_xpath;
  is_basic_node _ := xpath_call ProjectmembersGrammar.is_basic_node_xpath
}.

#[export] Instance SpecialcharsAnalysis_NodeTypes
  : NodeTypes SpecialcharsAnalysis := {
  is_structural_node _ :=
    xpath_call SpecialcharsGrammar.is_structural_node_xpath;
  is_basic_node _ := xpath_call SpecialcharsGrammar.is_basic_node_xpath
}.

(** The two comprehensions at the head of
    [GuidelinesAnalysis.make_citetrail]:
    [[prec for prec in node.xpath('preceding-sibling::*')
      if self.get_node_type(prec)]] and
    [[anc for anc in node.xpath('ancestor::*') if self.get_node_type(anc)]]. *)
Definition citetrail_preceding `{NodeTypes V} (self : V) (n : node)
  : result (list node) :=
  comprehension (fun prec => str_truthy <$> get_node_type self prec)
    (document_order_of_reverse (step axis_preceding_sibling any_element n)).

Definition citetrail_ancestors `{NodeTypes V} (self : V) (n : node)
  : result (list node) :=
  comprehension (fun anc => str_truthy <$> get_node_type self anc)
    (document_order_of_reverse (step axis_ancestor any_element n)).

(** * The specification's reading of the operations *)

(** A TEI name. *)
Definition tei (loc : string) : qname :=
  QName "http://www.tei-c.org/ns/1.0" loc.

(** The node is an element named [tei:loc]. *)
Definition is_tei (loc : string) (n : node) : bool :=
  match focus n with
  | Element h _ => qname_eqb (tag h) (tei loc)
  | _ => false
  end.

(** The leaf pattern of the Guidelines: paragraph, heading or list. *)
Definition leaf_pattern (n : node) : bool :=
  is_tei "p" n || is_tei "head" n || is_tei "list" n.

(** A node is classified when [get_node_type] gives a string for it that is
    not empty. *)
Definition classified `{NodeTypes V} (self : V) (n : node) : bool :=
  match get_node_type self n with
  | Ok s => negb (String.eqb s "")
  | Raise _ => false
  end.

(** One plus the number of preceding siblings, of any kind, that are
    classified. *)
Definition ordinal `{NodeTypes V} (self : V) (n : node) : nat :=
  1 + length (List.filter (classified self) (axis_preceding_sibling n)).

(** The classified ancestors, nearest first. *)
Definition classified_ancestors `{NodeTypes V} (self : V) (n : node)
  : list node :=
  List.filter (classified self) (axis_ancestor n).

(** The value of an attribute of an element, if it carries one. *)
Definition attribute_value (name : qname) (n : node) : option string :=
  match focus n with
  | Element h _ =>
      snd <$> List.find (fun kv => qname_eqb (fst kv) name) (attrib h)
  | _ => None
  end.

(** A [tei:list] element that carries a [type] attribute. *)
Definition typed_list (n : node) : bool :=
  is_tei "list" n
  && match attribute_value (attr_plain "type") n with
     | Some _ => true
     | None => false
     end.

(** The list type as the specification words it: the node's own [type] when
    it is a typed list, else that of the nearest ancestor that is one, else
    the empty string. *)
Definition list_type_reference (n : node) : string :=
  if typed_list n
  then default "" (attribute_value (attr_plain "type") n)
  else match List.find typed_list (axis_ancestor n) with
       | Some a => default "" (attribute_value (attr_plain "type") a)
       | None => ""
       end.

(** Whether a string has a character that is not whitespace, anywhere. *)
Definition contains_non_whitespace (s : ustring) : bool :=
  existsb (fun c => negb (is_whitespace c)) s.

(** The leaf pattern of the project-members listing: heading,
    organization or person. *)
Definition members_leaf_pattern (n : node) : bool :=
  is_tei "head" n || is_tei "org" n || is_tei "person" n.









(** A [tei:div] with a [tei:text] ancestor. *)
Definition structural_by_name (a : node) : bool :=
  is_tei "div" a && existsb (is_tei "text") (axis_ancestor a).


(** * A mapping cache and a sample document *)

(** Modelled from the spec: the class [DocConfig] of
    [api/v1/docs/config.py] is not among the sources.  The specification
    describes it as a mapping from stable identifiers to citetrails, with
    [get_citetrail_mapping(stable_id) -> string], a read that gives the
    string or nothing. *)
Record DictConfig := { citetrail_mapping : gmap string string }.

Definition dict_get_citetrail_mapping (stable_id : string) (cfg : DictConfig)
  : result pyval * DictConfig :=
  (Ok (match citetrail_mapping cfg !! stable_id with
       | Some c => PyStr c
       | None => PyNone
       end), cfg).

(** The child of [n] reached by the indices [p], each counted from 0 among
    the children. *)
Fixpoint descend (n : node) (p : list nat) : node :=
  match p with
  | [] => n
  | i :: p' =>
      match axis_child n !! i with
      | Some m => descend m p'
      | None => n
      end
  end.

Definition xml_id (v : string) : qname * string :=
  (QName "http://www.w3.org/XML/1998/namespace" "id", v).

Definition elem (loc : string) (at_ : list (qname * string))
    (ch : list tree) : tree :=
  Element (Header (tei loc) at_ None None) ch.

(** [<TEI><teiHeader/><text><body>
      <!--c--><div xml:id="d1"><head/><?pi x?><p><list type="ordered"><item/></list></p><p/></div>
      <div xml:id="d2"/></body></text></TEI>] *)
Definition sample_doc : tree :=
  elem "TEI" []
    [ elem "teiHeader" [] [];
      elem "text" []
        [ elem "body" []
            [ Comment "c" None;
              elem "div" [xml_id "d1"]
                [ elem "head" [] [];
                  ProcessingInstruction "pi" "x" None;
                  elem "p" []
                    [ elem "list" [(attr_plain "type", "ordered")]
                        [ elem "item" [] [] ] ];
                  elem "p" [] [] ];
              elem "div" [xml_id "d2"] [] ] ] ].

Definition sample_root : node := Node sample_doc [].
Definition sample_comment : node := descend sample_root [1; 0; 0]%nat.
Definition sample_div1 : node := descend sample_root [1; 0; 1]%nat.
Definition sample_div2 : node := descend sample_root [1; 0; 2]%nat.
Definition sample_head : node := descend sample_div1 [0]%nat.
Definition sample_pi : node := descend sample_div1 [1]%nat.
Definition sample_p1 : node := descend sample_div1 [2]%nat.
Definition sample_p2 : node := descend sample_div1 [3]%nat.
Definition sample_list : node := descend sample_p1 [0]%nat.
Definition sample_item : node := descend sample_list [0]%nat.

Definition sample_config : DictConfig :=
  {| citetrail_mapping := <["d1" := "1"]> ∅ |}.

(** * [analysis.py]: titles and citetrails *)

Section Analysis.

(** The class [DocConfig] lives in [api/v1/docs/config.py].  Of it the
    analysis uses one method, [get_citetrail_mapping], taken here as it is
    called: on a key, in a state of the config, giving a value or raising,
    and a state of the config. *)
Variable DocConfig : Type.
Variable get_citetrail_mapping :
  string -> DocConfig -> result pyval * DocConfig.

(** [str(e)] for an lxml element [e] is its [repr], which spells out the
    address of the object. *)
Variable element_repr : node -> string.

(** Computations that read or change the config and may raise. *)
Definition M (A : Type) : Type := DocConfig -> result A * DocConfig.

#[export] Instance M_ret : MRet M := fun A a cfg => (Ok a, cfg).

#[export] Instance M_bind : MBind M := fun A B k c cfg =>
  match c cfg with
  | (Ok a, cfg') => k a cfg'
  | (Raise e, cfg') => (Raise e, cfg')
  end.

(** A computation that leaves the config alone. *)
Definition lift {A} (r : result A) : M A := fun cfg => (r, cfg).

(** The other half of [DocAnalysis]: the abstract [make_title] and
    [make_citetrail]. *)
Class DocAnalysis (V : Type) `{NodeTypes V} := {
  make_title : V -> node -> M pyval;
  make_citetrail : V -> node -> M pyval
}.

(** A positional argument of a call. *)
Inductive pyarg :=
| ArgNode (n : node)
| ArgXPath (e : node -> list node).

(** Calling [exists] with the positional arguments [args]: Python binds
    them to [elem] and [xpath_expr] and raises [TypeError] when their number
    is not two. *)
Definition call_exists (args : list pyarg) : result bool :=
  match args with
  | [elem; xpath_expr] =>
      match elem, xpath_expr with
      | ArgNode n, ArgXPath e => Ok (exists_ n e)
      | ArgNode _, ArgNode _ => Raise TypeError
      | ArgXPath _, _ => Raise AttributeError
      end
  | _ => Raise TypeError
  end.

Definition GuidelinesAnalysis_make_title
    (self : GuidelinesAnalysis) (n : node) : M pyval :=
  mret (PyStr "placeholder").

Definition GuidelinesAnalysis_make_citetrail
    (self : GuidelinesAnalysis) (n : node) : M pyval :=
  let node_id := node_get n "id" in
  citetrail_preceding ← lift (citetrail_preceding self n);
  citetrail_ancestors ← lift (citetrail_ancestors self n);
  let cite := str_int (length citetrail_preceding + 1) in
  let citetrail := cite in
  if (0 <? length citetrail_ancestors)%nat then
    citetrail_parent ← lift (py_index (rev citetrail_ancestors) 0);
    cp_citetrail ← get_citetrail_mapping (get_xml_id citetrail_parent);
    t ← lift (py_add cp_citetrail (PyStr "."));
    lift (py_add t (PyStr cite))
  else mret (PyStr citetrail).

Definition ProjectmembersAnalysis_make_title
    (self : ProjectmembersAnalysis) (n : node) : M pyval :=
  mret (PyStr "placeholder").

Definition ProjectmembersAnalysis_make_citetrail
    (self : ProjectmembersAnalysis) (n : node) : M pyval :=
  mret (PyStr "placeholder").

(** [self::tei:charDecl] *)
Definition xp_self_charDecl : node -> list node :=
  step axis_self (name_test "tei" "charDecl").

(** [self::tei:char/tei:desc] *)
Definition xp_self_char_desc : node -> list node :=
  path_ (step axis_self (name_test "tei" "char"))
        (step axis_child (name_test "tei" "desc")).

(** [ancestor::tei:teiheader/tei:fileDesc/tei:titleStmt/
     tei:title[@xml:lang = "en"]] *)
Definition xp_header_title : node -> list node :=
  path_ (path_ (path_ (step axis_ancestor (name_test "tei" "teiheader"))
                      (step axis_child (name_test "tei" "fileDesc")))
               (step axis_child (name_test "tei" "titleStmt")))
        (where_ (step axis_child (name_test "tei" "title"))
           (fun m => existsb (String.eqb "en")
                       (axis_attribute (attr_prefixed "xml" "lang") m))).

(** [tei:desc/text()] *)
Definition xp_desc_text : node -> list string :=
  path_ (step axis_child (name_test "tei" "desc")) child_text.

Definition SpecialcharsAnalysis_make_title
    (self : SpecialcharsAnalysis) (n : node) : M pyval :=
  c1 ← lift (call_exists [ArgXPath xp_self_charDecl]);
  if c1 : bool then
    t ← lift (py_index (xp_header_title n) 0);
    mret (PyStr (element_repr t))
  else
    c2 ← lift (call_exists [ArgXPath xp_self_char_desc]);
    if c2 : bool then
      t ← lift (py_index (xp_desc_text n) 0);
      mret (PyStr t)
    else mret PyNone.

Definition SpecialcharsAnalysis_make_citetrail
    (self : SpecialcharsAnalysis) (n : node) : M pyval :=
  mret (PyStr "placeholder").

#[export] Instance GuidelinesAnalysis_DocAnalysis
  : DocAnalysis GuidelinesAnalysis := {
  make_title := GuidelinesAnalysis_make_title;
  make_citetrail := GuidelinesAnalysis_make_citetrail
}.

#[export] Instance ProjectmembersAnalysis_DocAnalysis
  : DocAnalysis ProjectmembersAnalysis := {
  make_title := ProjectmembersAnalysis_make_title;
  make_citetrail := ProjectmembersAnalysis_make_citetrail
}.

#[export] Instance SpecialcharsAnalysis_DocAnalysis
  : DocAnalysis SpecialcharsAnalysis := {
  make_title := SpecialcharsAnalysis_make_title;
  make_citetrail := SpecialcharsAnalysis_make_citetrail
}.

(** * Properties *)

Lemma xml_ns_tei : xml_ns !! "tei" = Some "http://www.tei-c.org/ns/1.0".
Proof. vm_compute. reflexivity. Qed.

Lemma xml_ns_xml :
  xml_ns !! "xml" = Some "http://www.w3.org/XML/1998/namespace".
Proof. vm_compute. reflexivity. Qed.

Example sample_types :
  map (get_node_type Guidelines)
    [sample_root; sample_comment; sample_div1; sample_div2; sample_head;
     sample_pi; sample_p1; sample_p2; sample_list; sample_item]
  = [Ok ""; Raise ValueError; Ok "structural"; Ok "structural"; Ok "basic";
     Raise ValueError; Ok "basic"; Ok "basic"; Ok ""; Ok ""].
Proof. vm_compute. reflexivity. Qed.

Example sample_list_types :
  map get_list_type [sample_list; sample_item; sample_p1]
  = [Ok (PyStr "ordered"); Ok (PyStr "ordered"); Ok (PyStr "")].
Proof. vm_compute. reflexivity. Qed.

(** ** The XPath combinators *)

Lemma expand_tei loc : expand "tei" loc = Some (tei loc).
Proof. unfold expand. rewrite xml_ns_tei. reflexivity. Qed.

Lemma name_test_tei loc n : name_test "tei" loc n = is_tei loc n.
Proof.
  unfold name_test, is_tei. rewrite expand_tei.
  destruct (focus n); reflexivity.
Qed.

Lemma is_tei_element loc n : is_tei loc n = true -> any_element n = true.
Proof. unfold is_tei, any_element. destruct (focus n); easy. Qed.

Lemma is_tei_other loc n : any_element n = false -> is_tei loc n = false.
Proof. unfold is_tei, any_element. destruct (focus n); easy. Qed.

Lemma boolean_self test n : boolean (step axis_self test n) = test n.
Proof. unfold step, axis_self. simpl. destruct (test n); reflexivity. Qed.

Lemma boolean_filter {A} (p : A -> bool) l :
  boolean (List.filter p l) = existsb p l.
Proof.
  induction l as [|x l IH]; simpl; [reflexivity|].
  destruct (p x); simpl; [reflexivity|exact IH].
Qed.

Lemma boolean_where e p n : boolean (where_ e p n) = existsb p (e n).
Proof. apply boolean_filter. Qed.

Lemma boolean_step axis test n :
  boolean (step axis test n) = existsb test (axis n).
Proof. apply boolean_filter. Qed.

Lemma where_self test p n :
  boolean (where_ (step axis_self test) p n) = test n && p n.
Proof.
  unfold where_, step, axis_self. simpl.
  destruct (test n); simpl; [destruct (p n)|]; reflexivity.
Qed.

Lemma filter_filter {A} (p q : A -> bool) l :
  List.filter q (List.filter p l) = List.filter (fun x => p x && q x) l.
Proof.
  induction l as [|x l IH]; simpl; [reflexivity|].
  destruct (p x); simpl; [destruct (q x)|]; rewrite IH; reflexivity.
Qed.

Lemma filter_rev {A} (p : A -> bool) l :
  List.filter p (rev l) = rev (List.filter p l).
Proof.
  induction l as [|x l IH]; simpl; [reflexivity|].
  rewrite List.filter_app, IH. simpl.
  destruct (p x); simpl; [reflexivity|apply app_nil_r].
Qed.

Lemma filter_ext_in {A} (p q : A -> bool) l :
  (forall x, In x l -> p x = q x) -> List.filter p l = List.filter q l.
Proof.
  induction l as [|x l IH]; simpl; intros Hpq; [reflexivity|].
  rewrite (Hpq x) by (left; reflexivity).
  rewrite IH by (intros y Hy; apply Hpq; right; exact Hy).
  reflexivity.
Qed.

Lemma filter_true_in {A} (p : A -> bool) l :
  (forall x, In x l -> p x = true) -> List.filter p l = l.
Proof.
  induction l as [|x l IH]; simpl; intros Hp; [reflexivity|].
  rewrite (Hp x) by (left; reflexivity).
  rewrite IH by (intros y Hy; apply Hp; right; exact Hy).
  reflexivity.
Qed.

Lemma existsb_ext_in {A} (p q : A -> bool) l :
  (forall x, In x l -> p x = q x) -> existsb p l = existsb q l.
Proof.
  induction l as [|x l IH]; simpl; intros Hpq; [reflexivity|].
  rewrite (Hpq x) by (left; reflexivity).
  rewrite IH by (intros y Hy; apply Hpq; right; exact Hy).
  reflexivity.
Qed.

Lemma existsb_false_forall {A} (p : A -> bool) l :
  existsb p l = false <-> (forall x, In x l -> p x = false).
Proof.
  induction l as [|x l IH]; simpl.
  - split; [intros _ y []|reflexivity].
  - rewrite orb_false_iff, IH. split.
    + intros [Hx Hl] y [<-|Hy]; [exact Hx|exact (Hl y Hy)].
    + intros Hall. split; [apply Hall; left; reflexivity|].
      intros y Hy. apply Hall. right. exact Hy.
Qed.

Lemma ancestors_from_elements t c a :
  In a (ancestors_from t c) -> any_element a = true.
Proof.
  revert t. induction c as [|f c IH]; simpl; intros t Ha; [contradiction|].
  destruct Ha as [<-|Ha]; [reflexivity|]. exact (IH _ Ha).
Qed.

Lemma step_ancestor_any n :
  step axis_ancestor any_element n = axis_ancestor n.
Proof.
  apply filter_true_in. intros a Ha. exact (ancestors_from_elements _ _ _ Ha).
Qed.

(** ** Calls that may raise *)

Lemma xpath_call_element {A} (e : node -> A) n :
  any_element n = true -> xpath_call e n = Ok (e n).
Proof. unfold xpath_call. intros ->. reflexivity. Qed.

Lemma xpath_call_other {A} (e : node -> A) n :
  any_element n = false -> xpath_call e n = Raise ValueError.
Proof. unfold xpath_call. intros ->. reflexivity. Qed.

Lemma comprehension_ok {A} (p : A -> result bool) (q : A -> bool) l :
  (forall x, In x l -> p x = Ok (q x)) ->
  comprehension p l = Ok (List.filter q l).
Proof.
  induction l as [|x l IH]; simpl; intros Hp; [reflexivity|].
  rewrite (Hp x) by (left; reflexivity).
  rewrite IH by (intros y Hy; apply Hp; right; exact Hy).
  simpl. destruct (q x); reflexivity.
Qed.

Lemma classified_truthy `{NodeTypes V} (self : V) n t :
  get_node_type self n = Ok t ->
  str_truthy <$> get_node_type self n = Ok (classified self n).
Proof.
  intros Ht. unfold classified. rewrite Ht. destruct t; reflexivity.
Qed.

Lemma classified_iff `{NodeTypes V} (self : V) n :
  classified self n = true
  <-> exists t, get_node_type self n = Ok t /\ t <> "".
Proof.
  unfold classified. destruct (get_node_type self n) as [t|e].
  - destruct (String.eqb_spec t "") as [->|Hne]; simpl.
    + split; [discriminate|]. intros (t & [= <-] & Hne). contradiction.
    + split; [|reflexivity]. intros _. exists t. split; [reflexivity|exact Hne].
  - split; [discriminate|]. intros (t & Ht & _). discriminate Ht.
Qed.

(** ** Node types of the three variants *)

Lemma guidelines_type_element n :
  any_element n = true ->
  get_node_type Guidelines n
  = Ok (if GuidelinesGrammar.structural_node_def n then "structural"
        else if truthy (GuidelinesGrammar.is_basic_node_xpath n) then "basic"
        else "").
Proof.
  intros Hn. unfold get_node_type. simpl.
  rewrite !xpath_call_element by exact Hn. simpl.
  destruct (GuidelinesGrammar.structural_node_def n); [reflexivity|].
  destruct (GuidelinesGrammar.basic_node_def n && _); reflexivity.
Qed.

Lemma guidelines_type_returns n :
  any_element n = true -> exists t, get_node_type Guidelines n = Ok t.
Proof. intros Hn. rewrite (guidelines_type_element n Hn). eauto. Qed.

Lemma guidelines_type_other n :
  any_element n = false -> get_node_type Guidelines n = Raise ValueError.
Proof.
  intros Hn. unfold get_node_type. simpl.
  rewrite !xpath_call_other by exact Hn. reflexivity.
Qed.

Lemma projectmembers_type_other n :
  any_element n = false -> get_node_type Projectmembers n = Raise ValueError.
Proof.
  intros Hn. unfold get_node_type. simpl.
  rewrite !xpath_call_other by exact Hn. reflexivity.
Qed.

Lemma specialchars_type_other n :
  any_element n = false -> get_node_type Specialchars n = Raise ValueError.
Proof.
  intros Hn. unfold get_node_type. simpl.
  rewrite !xpath_call_other by exact Hn. reflexivity.
Qed.

Lemma guidelines_classified_element n :
  classified Guidelines n = true -> any_element n = true.
Proof.
  intros Hc. destruct (any_element n) eqn:E; [reflexivity|].
  unfold classified in Hc. rewrite (guidelines_type_other n E) in Hc.
  discriminate.
Qed.

(** C2.  For every variant and every node, [get_node_type] returns
    ["structural"] exactly when [is_structural_node] holds, ["basic"]
    exactly when it does not and [is_basic_node] holds, and the empty string
    exactly when neither holds: structural is tried first, the three
    outcomes exclude each other, and a returned value is one of them. *)
Theorem get_node_type_priority `{NodeTypes V} (self : V) (n : node) :
  (get_node_type self n = Ok "structural"
   <-> exists s, is_structural_node self n = Ok s /\ truthy s = true)
  /\ (get_node_type self n = Ok "basic"
      <-> exists s b, is_structural_node self n = Ok s /\ truthy s = false
                      /\ is_basic_node self n = Ok b /\ truthy b = true)
  /\ (get_node_type self n = Ok ""
      <-> exists s b, is_structural_node self n = Ok s /\ truthy s = false
                      /\ is_basic_node self n = Ok b /\ truthy b = false)
  /\ (forall t, get_node_type self n = Ok t ->
        t = "structural" \/ t = "basic" \/ t = "").
Proof.
  unfold get_node_type.
  destruct (is_structural_node self n) as [s|e]; simpl.
  2:{ repeat split; try discriminate;
        try (intros (? & ? & ? & _); discriminate);
        try (intros (? & ? & _); discriminate). }
  destruct (truthy s) eqn:Hs.
  { repeat split; try discriminate; eauto;
      try (intros (? & ? & [= <-] & Hf & _); congruence).
    intros t [= <-]. auto. }
  destruct (is_basic_node self n) as [b|e]; simpl.
  2:{ repeat split; try discriminate;
        try (intros (? & [= <-] & ?); congruence);
        try (intros (? & ? & _ & _ & ? & _); discriminate). }
  destruct (truthy b) eqn:Hb.
  - repeat split; try discriminate; eauto 10;
      try (intros (? & [= <-] & ?); congruence);
      try (intros (? & ? & _ & _ & [= <-] & ?); congruence).
    intros t [= <-]. auto.
  - repeat split; try discriminate; eauto 10;
      try (intros (? & [= <-] & ?); congruence);
      try (intros (? & ? & _ & _ & [= <-] & ?); congruence).
    intros t [= <-]. auto.
Qed.

Lemma get_node_type_priority_witness :
  get_node_type Guidelines sample_div1 = Ok "structural"
  /\ get_node_type Guidelines sample_p1 = Ok "basic"
  /\ get_node_type Guidelines sample_list = Ok "".
Proof.
  split; [|split].
  - apply (proj1 (get_node_type_priority Guidelines sample_div1)).
    eexists. split; vm_compute; reflexivity.
  - apply (proj1 (proj2 (get_node_type_priority Guidelines sample_p1))).
    do 2 eexists. repeat split; vm_compute; reflexivity.
  - apply (proj1 (proj2 (proj2 (get_node_type_priority Guidelines sample_list)))).
    do 2 eexists. repeat split; vm_compute; reflexivity.
Defined.

(** ** Comments and processing instructions *)

Lemma not_element_iff n :
  any_element n = false
  <-> isinstance_Comment n = true \/ isinstance_ProcessingInstruction n = true.
Proof.
  unfold any_element, isinstance_Comment, isinstance_ProcessingInstruction.
  destruct (focus n); split; auto; intros [H|H]; discriminate H.
Qed.

(** On a comment or a processing instruction the compiled predicates are
    not evaluated: [get_node_type] raises for each variant, and so returns
    neither ["structural"] nor ["basic"]; [is_element] is false. *)
Lemma comment_pi_node_type (n : node) :
  isinstance_Comment n = true \/ isinstance_ProcessingInstruction n = true ->
  isinstance_Element n = true
  /\ get_node_type Guidelines n = Raise ValueError
  /\ get_node_type Projectmembers n = Raise ValueError
  /\ get_node_type Specialchars n = Raise ValueError
  /\ is_element n = false.
Proof.
  intros Hk. pose proof (proj2 (not_element_iff n) Hk) as He.
  split; [|split; [|split; [|split]]].
  - unfold isinstance_Element. destruct (focus n); reflexivity.
  - apply guidelines_type_other, He.
  - apply projectmembers_type_other, He.
  - apply specialchars_type_other, He.
  - unfold is_element.
    destruct Hk as [Hk|Hk]; rewrite Hk; simpl;
      rewrite ?orb_true_r; apply andb_false_r.
Qed.

(** C8.  On the processing instruction and on the comment of the sample
    document, [is_element] is false, and [get_node_type] of each variant
    raises [ValueError]: it returns neither ["structural"] nor ["basic"],
    but not the empty string either. *)
Theorem comment_pi_get_node_type_raises :
  (isinstance_ProcessingInstruction sample_pi = true
   /\ is_element sample_pi = false
   /\ get_node_type Guidelines sample_pi = Raise ValueError
   /\ get_node_type Projectmembers sample_pi = Raise ValueError
   /\ get_node_type Specialchars sample_pi = Raise ValueError)
  /\ (isinstance_Comment sample_comment = true
      /\ is_element sample_comment = false
      /\ get_node_type Guidelines sample_comment = Raise ValueError
      /\ get_node_type Projectmembers sample_comment = Raise ValueError
      /\ get_node_type Specialchars sample_comment = Raise ValueError).
Proof. vm_compute. repeat split. Qed.

(** ** Whitespace *)

(** What [is_more_than_whitespace] decides: whether the first character
    exists and is not whitespace. *)
Lemma is_more_than_whitespace_first (s : ustring) :
  is_more_than_whitespace s
  = match s with
    | c :: _ => negb (is_whitespace c)
    | [] => false
    end.
Proof.
  unfold is_more_than_whitespace, re_match_nonspace.
  destruct s as [|c s]; [reflexivity|].
  destruct (is_whitespace c); reflexivity.
Qed.

Lemma is_more_than_whitespace_sound (s : ustring) :
  is_more_than_whitespace s = true -> contains_non_whitespace s = true.
Proof.
  rewrite is_more_than_whitespace_first. unfold contains_non_whitespace.
  destruct s as [|c s]; [discriminate|]. simpl. intros ->. reflexivity.
Qed.

(** C9.  On a space followed by the letter a, a string that has a character
    that is not whitespace, [is_more_than_whitespace] is false: the pattern
    is matched at the start of the string only. *)
Theorem is_more_than_whitespace_leading_space :
  contains_non_whitespace [32; 97]%N = true
  /\ is_more_than_whitespace [32; 97]%N = false.
Proof. split; reflexivity. Qed.

(** ** List types *)

Lemma head_filter_find {A} (p : A -> bool) l :
  head (List.filter p l) = List.find p l.
Proof.
  induction l as [|x l IH]; simpl; [reflexivity|].
  destruct (p x); simpl; [reflexivity|exact IH].
Qed.

Lemma axis_attribute_head name n :
  head (axis_attribute name n) = attribute_value name n.
Proof.
  unfold axis_attribute, attribute_value.
  destruct (focus n) as [h ch| |]; try reflexivity.
  rewrite <- head_filter_find.
  destruct (List.filter _ (attrib h)); reflexivity.
Qed.

Lemma has_attribute_value name n :
  has_attribute name n
  = match attribute_value name n with Some _ => true | None => false end.
Proof.
  unfold has_attribute. rewrite <- axis_attribute_head.
  destruct (axis_attribute name n); reflexivity.
Qed.

Lemma node_get_value key n :
  node_get n key
  = match attribute_value (attr_plain key) n with
    | Some v => PyStr v
    | None => PyNone
    end.
Proof.
  unfold node_get, attribute_value.
  destruct (focus n) as [h ch| |]; try reflexivity.
  destruct (List.find _ (attrib h)); reflexivity.
Qed.

Lemma typed_list_tests n :
  name_test "tei" "list" n && has_attribute (attr_plain "type") n
  = typed_list n.
Proof.
  unfold typed_list. rewrite name_test_tei, has_attribute_value. reflexivity.
Qed.

Lemma typed_list_ancestors n :
  where_ (step axis_ancestor (name_test "tei" "list"))
         (has_attribute (attr_plain "type")) n
  = List.filter typed_list (axis_ancestor n).
Proof.
  unfold where_, step. rewrite filter_filter.
  apply filter_ext_in. intros a _. apply typed_list_tests.
Qed.

(** C10.  [get_list_type] returns a string in every case: the node's own
    [type] attribute when the node is a [tei:list] carrying one, else the
    [type] attribute of the nearest [tei:list] ancestor carrying one, else
    the empty string. *)
Theorem get_list_type_correct (n : node) :
  get_list_type n = Ok (PyStr (list_type_reference n)).
Proof.
  unfold get_list_type, list_type_reference, exists_, path_, first.
  rewrite where_self, typed_list_tests, typed_list_ancestors.
  destruct (typed_list n) eqn:Hn.
  - rewrite node_get_value. unfold typed_list in Hn.
    destruct (attribute_value (attr_plain "type") n); [reflexivity|].
    rewrite andb_false_r in Hn. discriminate.
  - rewrite <- head_filter_find.
    destruct (List.filter typed_list (axis_ancestor n)) as [|a l] eqn:Hl;
      [reflexivity|].
    assert (Ha : typed_list a = true).
    { assert (Hin : In a (List.filter typed_list (axis_ancestor n)))
        by (rewrite Hl; left; reflexivity).
      apply List.filter_In in Hin. apply Hin. }
    simpl. rewrite app_nil_r. unfold py_index.
    rewrite <- head_lookup, axis_attribute_head. unfold typed_list in Ha.
    destruct (attribute_value (attr_plain "type") a); [reflexivity|].
    rewrite andb_false_r in Ha. discriminate.
Qed.

(** ** The Guidelines grammar *)

Lemma guidelines_leaf n : GuidelinesGrammar.leaf n = leaf_pattern n.
Proof.
  unfold GuidelinesGrammar.leaf, leaf_pattern.
  rewrite !boolean_self, !name_test_tei. reflexivity.
Qed.

Lemma guidelines_structural_def n :
  GuidelinesGrammar.structural_node_def n
  = is_tei "div" n && existsb (is_tei "text") (axis_ancestor n).
Proof.
  unfold GuidelinesGrammar.structural_node_def.
  rewrite boolean_self, boolean_step, name_test_tei.
  apply (f_equal (andb (is_tei "div" n))).
  apply existsb_ext_in. intros a _. apply name_test_tei.
Qed.

Lemma guidelines_basic_xpath n :
  truthy (GuidelinesGrammar.is_basic_node_xpath n)
  = leaf_pattern n
    && negb (existsb leaf_pattern (axis_ancestor n))
    && existsb (fun a => is_tei "div" a
                         && existsb (is_tei "text") (axis_ancestor a))
         (axis_ancestor n).
Proof.
  simpl. unfold GuidelinesGrammar.basic_node_def.
  rewrite !boolean_where, step_ancestor_any, guidelines_leaf.
  f_equal; [f_equal; f_equal|].
  - apply existsb_ext_in. intros a _. apply guidelines_leaf.
  - apply existsb_ext_in. intros a _. apply guidelines_structural_def.
Qed.

Lemma leaf_pattern_element n : leaf_pattern n = true -> any_element n = true.
Proof.
  unfold leaf_pattern. intros H.
  apply orb_true_iff in H. destruct H as [H|H];
    [apply orb_true_iff in H; destruct H as [H|H]|];
    exact (is_tei_element _ _ H).
Qed.

Lemma leaf_pattern_not_div n : leaf_pattern n = true -> is_tei "div" n = false.
Proof.
  unfold leaf_pattern, is_tei.
  destruct (focus n) as [[[u l] at_ tx tl] ch| |]; try discriminate.
  unfold qname_eqb, tei. simpl.
  destruct (String.eqb u _); [|reflexivity]. simpl.
  destruct (String.eqb_spec l "div") as [->|]; [discriminate|reflexivity].
Qed.

(** C3.  In the Guidelines, [is_basic_node] holds exactly when the node
    matches the leaf pattern, no ancestor of it does, and some ancestor is a
    [tei:div] that has a [tei:text] ancestor.  So a leaf-pattern node inside
    a leaf-pattern node is not basic, and its node type is the empty
    string. *)
Theorem guidelines_basic_node (n : node) :
  ((exists b, is_basic_node Guidelines n = Ok b /\ truthy b = true) <->
     leaf_pattern n = true
     /\ (forall a, In a (axis_ancestor n) -> leaf_pattern a = false)
     /\ (exists a, In a (axis_ancestor n) /\ is_tei "div" a = true
           /\ exists t, In t (axis_ancestor a) /\ is_tei "text" t = true))
  /\ (leaf_pattern n = true ->
      (exists a, In a (axis_ancestor n) /\ leaf_pattern a = true) ->
      is_basic_node Guidelines n = Ok (XBool false)
      /\ get_node_type Guidelines n = Ok "").
Proof.
  split.
  - split.
    + intros (b & Hb & Ht). simpl in Hb. unfold xpath_call in Hb.
      destruct (any_element n); [|discriminate]. injection Hb as <-.
      rewrite guidelines_basic_xpath, !andb_true_iff, negb_true_iff in Ht.
      rewrite existsb_false_forall, List.existsb_exists in Ht.
      destruct Ht as [[Hl Hn] (a & Ha & Hs)]. apply andb_true_iff in Hs.
      destruct Hs as [Hd Htx]. apply List.existsb_exists in Htx.
      split; [exact Hl|split; [exact Hn|]].
      exists a. split; [exact Ha|split; [exact Hd|exact Htx]].
    + intros (Hl & Hn & a & Ha & Hd & Htx).
      exists (GuidelinesGrammar.is_basic_node_xpath n). split.
      * simpl. apply xpath_call_element, leaf_pattern_element, Hl.
      * rewrite guidelines_basic_xpath, !andb_true_iff, negb_true_iff.
        rewrite existsb_false_forall, List.existsb_exists.
        split; [split; [exact Hl|exact Hn]|].
        exists a. split; [exact Ha|]. apply andb_true_iff.
        split; [exact Hd|]. apply List.existsb_exists. exact Htx.
  - intros Hl (a & Ha & Hla).
    pose proof (leaf_pattern_element n Hl) as He.
    assert (Hb : truthy (GuidelinesGrammar.is_basic_node_xpath n) = false).
    { rewrite guidelines_basic_xpath.
      assert (Hx : existsb leaf_pattern (axis_ancestor n) = true)
        by (apply List.existsb_exists; exists a; split; assumption).
      rewrite Hx, andb_false_r. reflexivity. }
    split.
    + simpl. rewrite xpath_call_element by exact He.
      simpl in Hb. unfold GuidelinesGrammar.is_basic_node_xpath.
      rewrite Hb. reflexivity.
    + rewrite (guidelines_type_element n He), Hb, guidelines_structural_def.
      rewrite (leaf_pattern_not_div n Hl). reflexivity.
Qed.

Lemma guidelines_basic_node_witness :
  is_basic_node Guidelines sample_list = Ok (XBool false)
  /\ get_node_type Guidelines sample_list = Ok "".
Proof.
  apply (proj2 (guidelines_basic_node sample_list)).
  - vm_compute. reflexivity.
  - exists sample_p1. split; [|vm_compute; reflexivity].
    vm_compute. left. reflexivity.
Defined.

(** ** Ordinals of siblings *)

Lemma siblings_before_split h ls rs c m :
  In m (siblings_before h ls rs c) ->
  exists l1, siblings_before h ls rs c = l1 ++ m :: axis_preceding_sibling m.
Proof.
  revert rs. induction ls as [|l ls IH]; simpl; intros rs Hm; [contradiction|].
  destruct Hm as [<-|Hm].
  - exists []. reflexivity.
  - destruct (IH _ Hm) as [l1 Hl1].
    exists (Node l (Frame h ls rs :: c) :: l1).
    simpl. rewrite Hl1. reflexivity.
Qed.

Lemma preceding_sibling_split n m :
  In m (axis_preceding_sibling n) ->
  exists l1, axis_preceding_sibling n = l1 ++ m :: axis_preceding_sibling m.
Proof.
  unfold axis_preceding_sibling at 1 2.
  destruct (context n) as [|f c]; [intros []|].
  apply siblings_before_split.
Qed.

Lemma guidelines_comprehension l :
  (forall x, In x l -> any_element x = true) ->
  comprehension (fun x => str_truthy <$> get_node_type Guidelines x) l
  = Ok (List.filter (classified Guidelines) l).
Proof.
  intros Hl. apply comprehension_ok. intros x Hx.
  destruct (guidelines_type_returns x (Hl x Hx)) as [t Ht].
  exact (classified_truthy Guidelines x t Ht).
Qed.

Lemma guidelines_citetrail_preceding n :
  citetrail_preceding Guidelines n
  = Ok (List.filter (classified Guidelines)
          (rev (step axis_preceding_sibling any_element n))).
Proof.
  apply guidelines_comprehension. intros x Hx.
  apply List.in_rev in Hx. apply List.filter_In in Hx. apply Hx.
Qed.

Lemma guidelines_citetrail_ancestors n :
  citetrail_ancestors Guidelines n
  = Ok (rev (classified_ancestors Guidelines n)).
Proof.
  unfold citetrail_ancestors, classified_ancestors, document_order_of_reverse.
  rewrite step_ancestor_any, guidelines_comprehension, filter_rev;
    [reflexivity|].
  intros x Hx. apply List.in_rev in Hx.
  exact (ancestors_from_elements _ _ _ Hx).
Qed.

Lemma guidelines_ordinal n :
  (length (List.filter (classified Guidelines)
             (rev (step axis_preceding_sibling any_element n))) + 1
   = ordinal Guidelines n)%nat.
Proof.
  unfold ordinal, step.
  rewrite filter_rev, List.length_rev, filter_filter.
  rewrite (filter_ext_in _ (classified Guidelines)); [lia|].
  intros x _. destruct (classified Guidelines x) eqn:Hc;
    [|apply andb_false_r].
  rewrite (guidelines_classified_element x Hc). reflexivity.
Qed.

(** ** Citetrails *)

Lemma string_of_uint_no_dot d :
  ~ In "."%char (String.list_ascii_of_string (NilEmpty.string_of_uint d)).
Proof.
  induction d; simpl; intros Hin;
    try (destruct Hin as [Hin|Hin]; [discriminate Hin|exact (IHd Hin)]).
  exact Hin.
Qed.

Lemma str_int_no_dot k :
  ~ In "."%char (String.list_ascii_of_string (str_int k)).
Proof.
  unfold str_int, NilZero.string_of_uint.
  destruct (Nat.to_uint k) eqn:E; try (rewrite <- E; apply string_of_uint_no_dot).
  simpl. intros [Hin|[]]. discriminate Hin.
Qed.

Lemma string_app_assoc (a b c : string) : (a +:+ b) +:+ c = a +:+ b +:+ c.
Proof.
  induction a as [|x a IH]; [reflexivity|].
  change (String x ((a +:+ b) +:+ c) = String x (a +:+ b +:+ c)).
  rewrite IH. reflexivity.
Qed.

Lemma make_citetrail_unfold (n : node) (cfg : DocConfig) :
  make_citetrail Guidelines n cfg
  = match classified_ancestors Guidelines n with
    | [] => (Ok (PyStr (str_int (ordinal Guidelines n))), cfg)
    | parent :: _ =>
        (cp_citetrail ← get_citetrail_mapping (get_xml_id parent);
         t ← lift (py_add cp_citetrail (PyStr "."));
         lift (py_add t (PyStr (str_int (ordinal Guidelines n))))) cfg
    end.
Proof.
  simpl. unfold GuidelinesAnalysis_make_citetrail.
  rewrite guidelines_citetrail_preceding, guidelines_citetrail_ancestors.
  unfold mbind at 1 2, M_bind at 1 2, lift at 1 2.
  rewrite guidelines_ordinal, List.length_rev, List.rev_involutive.
  destruct (classified_ancestors Guidelines n) as [|parent rest];
    reflexivity.
Qed.

(** C1.  [GuidelinesAnalysis.make_citetrail] is the reference algorithm.
    With [ordinal] one plus the number of classified preceding siblings: a
    node without classified ancestor gets [str(ordinal)], which has no dot;
    a node with one gets the citetrail that the mapping gives for the stable
    identifier of the nearest classified ancestor, then a dot, then
    [str(ordinal)]. *)
Theorem make_citetrail_reference (n : node) (cfg : DocConfig) :
  (classified_ancestors Guidelines n = [] ->
   make_citetrail Guidelines n cfg
   = (Ok (PyStr (str_int (ordinal Guidelines n))), cfg)
   /\ ~ In "."%char (String.list_ascii_of_string (str_int (ordinal Guidelines n))))
  /\ (forall parent rest c cfg',
        classified_ancestors Guidelines n = parent :: rest ->
        get_citetrail_mapping (get_xml_id parent) cfg = (Ok (PyStr c), cfg') ->
        make_citetrail Guidelines n cfg
        = (Ok (PyStr (c +:+ "." +:+ str_int (ordinal Guidelines n))), cfg')).
Proof.
  split.
  - intros Hanc. split; [|apply str_int_no_dot].
    rewrite make_citetrail_unfold, Hanc. reflexivity.
  - intros parent rest c cfg' Hanc Hget.
    rewrite make_citetrail_unfold, Hanc.
    unfold mbind, M_bind, lift. rewrite Hget. simpl.
    rewrite string_app_assoc. reflexivity.
Qed.

Lemma make_citetrail_config (n : node) (cfg : DocConfig) :
  snd (make_citetrail Guidelines n cfg) = cfg
  \/ exists k, snd (make_citetrail Guidelines n cfg)
               = snd (get_citetrail_mapping k cfg).
Proof.
  rewrite make_citetrail_unfold.
  destruct (classified_ancestors Guidelines n) as [|parent rest];
    [left; reflexivity|].
  right. exists (get_xml_id parent). unfold mbind, M_bind, lift.
  destruct (get_citetrail_mapping (get_xml_id parent) cfg) as [[v|e] cfg'];
    [|reflexivity].
  destruct (py_add v (PyStr ".")); reflexivity.
Qed.

(** C6.  [GuidelinesAnalysis.make_citetrail] does not write to the
    citetrail mapping: when [get_citetrail_mapping] is a read, the config
    after the call is the config before it. *)
Theorem make_citetrail_reads_only (n : node) (cfg : DocConfig) :
  (forall k c, snd (get_citetrail_mapping k c) = c) ->
  snd (make_citetrail Guidelines n cfg) = cfg.
Proof.
  intros Hread.
  destruct (make_citetrail_config n cfg) as [H|[k H]]; [exact H|].
  rewrite H. apply Hread.
Qed.

(** ** Stubs *)

(** C4, as the code has it.  The operations that are not yet written,
    [make_citetrail] of the project-members and special-characters variants
    and [make_title] of the Guidelines and project-members variants, return
    the string ["placeholder"] on every node, raise nothing and leave the
    config as it is. *)
Theorem stubs_return_placeholder (n : node) (cfg : DocConfig) :
  make_citetrail Projectmembers n cfg = (Ok (PyStr "placeholder"), cfg)
  /\ make_citetrail Specialchars n cfg = (Ok (PyStr "placeholder"), cfg)
  /\ make_title Guidelines n cfg = (Ok (PyStr "placeholder"), cfg)
  /\ make_title Projectmembers n cfg = (Ok (PyStr "placeholder"), cfg).
Proof. repeat split. Qed.

(** [SpecialcharsAnalysis.make_title] raises on every node: its first call
    of [exists] passes one argument where two are required. *)
Lemma specialchars_make_title_raises (n : node) (cfg : DocConfig) :
  make_title Specialchars n cfg = (Raise TypeError, cfg).
Proof. reflexivity. Qed.

(** C5.  On the second paragraph of the sample document, which is neither a
    [tei:charDecl] nor a [tei:char] with a [tei:desc] child,
    [SpecialcharsAnalysis.make_title] raises [TypeError] and does not
    return [None]. *)
Theorem specialchars_make_title_no_source (cfg : DocConfig) :
  exists_ sample_p2 xp_self_charDecl = false
  /\ exists_ sample_p2 xp_self_char_desc = false
  /\ make_title Specialchars sample_p2 cfg = (Raise TypeError, cfg)
  /\ make_title Specialchars sample_p2 cfg <> (Ok PyNone, cfg).
Proof.
  split; [vm_compute; reflexivity|].
  split; [vm_compute; reflexivity|].
  split; [reflexivity|].
  rewrite specialchars_make_title_raises. discriminate.
Qed.

(** ** More on citetrails *)

Lemma siblings_before_plug h c m : forall ls rs,
  In m (siblings_before h ls rs c) ->
  exists ls' rs',
    context m = Frame h ls' rs' :: c
    /\ rev_append ls' (focus m :: rs') = rev_append ls rs.
Proof.
  induction ls as [|l ls IH]; simpl; intros rs Hm; [contradiction|].
  destruct Hm as [<-|Hm].
  - exists ls, rs. split; reflexivity.
  - exact (IH _ Hm).
Qed.

Lemma siblings_share_ancestors n m :
  In m (axis_preceding_sibling n) -> axis_ancestor m = axis_ancestor n.
Proof.
  unfold axis_preceding_sibling, axis_ancestor.
  destruct (context n) as [|[h ls rs] c]; [intros []|]. simpl.
  intros Hm. destruct (siblings_before_plug _ _ _ _ _ Hm)
    as (ls' & rs' & Hc & Hr).
  rewrite Hc. simpl. unfold plug. simpl. rewrite Hr. reflexivity.
Qed.

(** C7.  Of two nodes with a non-empty node type, the first a preceding
    sibling of the second, [make_citetrail] computes a smaller ordinal for
    the first: the two calls, in one state of the config, return the same
    parent citetrail (or none) followed by [str] of two ordinals, each one
    plus the number of classified preceding siblings, and the first ordinal
    is strictly less than the second. *)
Theorem ordinal_strictly_increasing (n1 n2 : node) (cfg : DocConfig) :
  In n1 (axis_preceding_sibling n2) ->
  (exists t1, get_node_type Guidelines n1 = Ok t1 /\ t1 <> "") ->
  (exists t2, get_node_type Guidelines n2 = Ok t2 /\ t2 <> "") ->
  exists k1 k2 : nat,
    (k1 < k2)%nat
    /\ k1 = ordinal Guidelines n1
    /\ k2 = ordinal Guidelines n2
    /\ (exists l1 l2,
          citetrail_preceding Guidelines n1 = Ok l1
          /\ citetrail_preceding Guidelines n2 = Ok l2
          /\ k1 = (length l1 + 1)%nat /\ k2 = (length l2 + 1)%nat)
    /\ (classified_ancestors Guidelines n2 = [] ->
        make_citetrail Guidelines n1 cfg = (Ok (PyStr (str_int k1)), cfg)
        /\ make_citetrail Guidelines n2 cfg = (Ok (PyStr (str_int k2)), cfg))
    /\ (forall parent rest c cfg',
          classified_ancestors Guidelines n2 = parent :: rest ->
          get_citetrail_mapping (get_xml_id parent) cfg
          = (Ok (PyStr c), cfg') ->
          make_citetrail Guidelines n1 cfg
          = (Ok (PyStr (c +:+ "." +:+ str_int k1)), cfg')
          /\ make_citetrail Guidelines n2 cfg
             = (Ok (PyStr (c +:+ "." +:+ str_int k2)), cfg')).
Proof.
  intros Hin H1 _. apply classified_iff in H1.
  exists (ordinal Guidelines n1), (ordinal Guidelines n2).
  assert (Hord : (ordinal Guidelines n1 < ordinal Guidelines n2)%nat).
  { unfold ordinal. destruct (preceding_sibling_split n2 n1 Hin) as [l1 ->].
    rewrite List.filter_app. simpl. rewrite H1.
    rewrite List.length_app. simpl. lia. }
  assert (Hanc : classified_ancestors Guidelines n1
                 = classified_ancestors Guidelines n2).
  { unfold classified_ancestors.
    rewrite (siblings_share_ancestors n2 n1 Hin). reflexivity. }
  split; [exact Hord|]. split; [reflexivity|]. split; [reflexivity|].
  split; [|split].
  - do 2 eexists.
    split; [apply guidelines_citetrail_preceding|].
    split; [apply guidelines_citetrail_preceding|].
    split; symmetry; apply guidelines_ordinal.
  - intros Hnil. rewrite !make_citetrail_unfold, Hanc, Hnil.
    split; reflexivity.
  - intros parent rest c cfg' Hp Hget.
    rewrite !make_citetrail_unfold, Hanc, Hp.
    unfold mbind, M_bind, lift. rewrite Hget. simpl.
    rewrite !string_app_assoc. split; reflexivity.
Qed.

Lemma to_uint_not_nil k : Nat.to_uint k <> Decimal.Nil.
Proof.
  intros H. pose proof (DecimalNat.Unsigned.of_to k) as Hk.
  rewrite H in Hk. simpl in Hk. subst k. discriminate H.
Qed.

Lemma str_int_inj a b : str_int a = str_int b -> a = b.
Proof.
  unfold str_int. intros H.
  apply (f_equal NilZero.uint_of_string) in H.
  rewrite !NilZero.usu in H by apply to_uint_not_nil.
  injection H as H. apply DecimalNat.Unsigned.to_uint_inj, H.
Qed.

Lemma str_int_not_empty k : str_int k <> "".
Proof.
  unfold str_int, NilZero.string_of_uint.
  destruct (Nat.to_uint k); discriminate.
Qed.

Lemma string_app_cancel (a x y : string) : a +:+ x = a +:+ y -> x = y.
Proof.
  induction a as [|c a IH]; intros H; [exact H|].
  injection H as H. exact (IH H).
Qed.

Lemma string_prefix_app (a x : string) : String.prefix a (a +:+ x) = true.
Proof.
  induction a as [|c a IH]; [destruct x; reflexivity|]. simpl.
  destruct (Ascii.ascii_dec c c) as [_|Hne]; [exact IH|contradiction].
Qed.

Lemma string_length_app (a x : string) :
  String.length (a +:+ x) = (String.length a + String.length x)%nat.
Proof. induction a as [|c a IH]; simpl; [|rewrite IH]; reflexivity. Qed.

(** X24.  [make_citetrail] raises in two cases only, both with a classified
    ancestor: the lookup of the parent's citetrail raises, and that
    exception comes through, or it returns [None], and the concatenation
    raises [TypeError].  When it returns, it returns a [str]. *)
Theorem make_citetrail_raises (n : node) (cfg cfg' : DocConfig) :
  (forall e,
     make_citetrail Guidelines n cfg = (Raise e, cfg')
     <-> exists parent rest,
           classified_ancestors Guidelines n = parent :: rest
           /\ (get_citetrail_mapping (get_xml_id parent) cfg = (Raise e, cfg')
               \/ (get_citetrail_mapping (get_xml_id parent) cfg
                   = (Ok PyNone, cfg') /\ e = TypeError)))
  /\ (forall v, make_citetrail Guidelines n cfg = (Ok v, cfg') ->
                exists s, v = PyStr s).
Proof.
  rewrite make_citetrail_unfold.
  destruct (classified_ancestors Guidelines n) as [|parent rest].
  - split.
    + intros e. split; [discriminate|].
      intros (p & r & H & _). discriminate H.
    + intros v [= <- _]. eauto.
  - unfold mbind, M_bind, lift.
    destruct (get_citetrail_mapping (get_xml_id parent) cfg)
      as [[[|c]|e0] cfg0] eqn:Hg; simpl; split.
    + intros e. split.
      * intros [= <- <-]. exists parent, rest. split; [reflexivity|].
        right. split; [exact Hg|reflexivity].
      * intros (p & r & [= <- <-] & [H|[H He]]); rewrite Hg in H;
          [discriminate H|]. injection H as <-. rewrite He. reflexivity.
    + discriminate.
    + intros e. split; [discriminate|].
      intros (p & r & [= <- <-] & [H|[H _]]); rewrite Hg in H;
        discriminate H.
    + intros v [= <- _]. eauto.
    + intros e. split.
      * intros [= <- <-]. exists parent, rest. split; [reflexivity|].
        left. exact Hg.
      * intros (p & r & [= <- <-] & [H|[H _]]); rewrite Hg in H;
          [injection H as <- <-; reflexivity|discriminate H].
    + discriminate.
Qed.

(** X25.  The citetrail of a node with a classified ancestor starts with the
    citetrail of its parent and is longer by a dot and at least one
    digit. *)
Theorem make_citetrail_prefix (n parent : node) (rest : list node)
    (c : string) (cfg cfg' : DocConfig) :
  classified_ancestors Guidelines n = parent :: rest ->
  get_citetrail_mapping (get_xml_id parent) cfg = (Ok (PyStr c), cfg') ->
  exists s,
    make_citetrail Guidelines n cfg = (Ok (PyStr s), cfg')
    /\ String.prefix c s = true
    /\ (String.length c + 2 <= String.length s)%nat.
Proof.
  intros Hanc Hget. rewrite make_citetrail_unfold, Hanc.
  unfold mbind, M_bind, lift. rewrite Hget. simpl.
  eexists. split; [reflexivity|]. rewrite string_app_assoc.
  split; [apply string_prefix_app|].
  rewrite !string_length_app. simpl.
  pose proof (str_int_not_empty (ordinal Guidelines n)) as Hne.
  destruct (str_int (ordinal Guidelines n)); [contradiction|simpl; lia].
Qed.

(** X26.  Siblings get different citetrails: when a classified node precedes
    another among the children of one parent and [make_citetrail] returns
    for both in the same state of the config, the two strings differ. *)
Theorem sibling_citetrails_differ (n1 n2 : node) (cfg c1 c2 : DocConfig)
    (s1 s2 : string) :
  In n1 (axis_preceding_sibling n2) ->
  classified Guidelines n1 = true ->
  make_citetrail Guidelines n1 cfg = (Ok (PyStr s1), c1) ->
  make_citetrail Guidelines n2 cfg = (Ok (PyStr s2), c2) ->
  s1 <> s2.
Proof.
  intros Hin Hc H1 H2 Heq. subst s2.
  assert (Hord : (ordinal Guidelines n1 < ordinal Guidelines n2)%nat).
  { unfold ordinal. destruct (preceding_sibling_split n2 n1 Hin) as [l1 ->].
    rewrite List.filter_app. simpl. rewrite Hc.
    rewrite List.length_app. simpl. lia. }
  rewrite make_citetrail_unfold in H1, H2.
  unfold classified_ancestors in H1, H2.
  rewrite (siblings_share_ancestors n2 n1 Hin) in H1.
  destruct (List.filter (classified Guidelines) (axis_ancestor n2))
    as [|parent rest].
  - injection H1 as H1 _. injection H2 as H2 _. rewrite <- H2 in H1.
    apply str_int_inj in H1. lia.
  - unfold mbind, M_bind, lift in H1, H2.
    destruct (get_citetrail_mapping (get_xml_id parent) cfg)
      as [[[|c]|e0] cfg0]; simpl in H1, H2; try discriminate.
    injection H1 as H1 _. injection H2 as H2 _. rewrite <- H2 in H1.
    rewrite !string_app_assoc in H1.
    apply string_app_cancel, string_app_cancel, str_int_inj in H1. lia.
Qed.

End Analysis.

(** ** The sample document, with the mapping cache *)

Example sample_citetrails :
  map (fun n => fst (make_citetrail DictConfig
                       (DocAnalysis := GuidelinesAnalysis_DocAnalysis
                                         DictConfig dict_get_citetrail_mapping)
                       Guidelines n sample_config))
    [sample_div1; sample_div2; sample_head; sample_p1; sample_p2]
  = [Ok (PyStr "1"); Ok (PyStr "2"); Ok (PyStr "1.1"); Ok (PyStr "1.2");
     Ok (PyStr "1.3")].
Proof. vm_compute. reflexivity. Qed.

(** Without an entry for the parent the concatenation fails. *)
Example sample_citetrail_unresolved :
  fst (make_citetrail DictConfig
         (DocAnalysis := GuidelinesAnalysis_DocAnalysis
                           DictConfig dict_get_citetrail_mapping)
         Guidelines sample_p1 {| citetrail_mapping := ∅ |})
  = Raise TypeError.
Proof. vm_compute. reflexivity. Qed.

Lemma make_citetrail_reference_witness :
  (make_citetrail DictConfig
     (DocAnalysis := GuidelinesAnalysis_DocAnalysis
                       DictConfig dict_get_citetrail_mapping)
     Guidelines sample_div2 sample_config
   = (Ok (PyStr (str_int (ordinal Guidelines sample_div2))), sample_config)
   /\ ~ In "."%char
        (String.list_ascii_of_string (str_int (ordinal Guidelines sample_div2))))
  /\ make_citetrail DictConfig
       (DocAnalysis := GuidelinesAnalysis_DocAnalysis
                         DictConfig dict_get_citetrail_mapping)
       Guidelines sample_p1 sample_config
     = (Ok (PyStr ("1" +:+ "." +:+ str_int (ordinal Guidelines sample_p1))),
        sample_config).
Proof.
  split.
  - apply (proj1 (make_citetrail_reference DictConfig
                    dict_get_citetrail_mapping sample_div2 sample_config)).
    vm_compute. reflexivity.
  - apply (proj2 (make_citetrail_reference DictConfig
                    dict_get_citetrail_mapping sample_p1 sample_config)
             sample_div1 []).
    + vm_compute. reflexivity.
    + vm_compute. reflexivity.
Defined.

Lemma make_citetrail_reads_only_witness :
  snd (make_citetrail DictConfig
         (DocAnalysis := GuidelinesAnalysis_DocAnalysis
                           DictConfig dict_get_citetrail_mapping)
         Guidelines sample_p1 sample_config)
  = sample_config.
Proof.
  apply (make_citetrail_reads_only DictConfig dict_get_citetrail_mapping
           sample_p1 sample_config).
  intros k c. reflexivity.
Defined.

Lemma ordinal_strictly_increasing_witness :
  exists k1 k2 : nat,
    (k1 < k2)%nat
    /\ k1 = ordinal Guidelines sample_head
    /\ k2 = ordinal Guidelines sample_p2
    /\ (exists l1 l2,
          citetrail_preceding Guidelines sample_head = Ok l1
          /\ citetrail_preceding Guidelines sample_p2 = Ok l2
          /\ k1 = (length l1 + 1)%nat /\ k2 = (length l2 + 1)%nat)
    /\ (classified_ancestors Guidelines sample_p2 = [] ->
        make_citetrail DictConfig
          (DocAnalysis := GuidelinesAnalysis_DocAnalysis
                            DictConfig dict_get_citetrail_mapping)
          Guidelines sample_head sample_config
        = (Ok (PyStr (str_int k1)), sample_config)
        /\ make_citetrail DictConfig
             (DocAnalysis := GuidelinesAnalysis_DocAnalysis
                               DictConfig dict_get_citetrail_mapping)
             Guidelines sample_p2 sample_config
           = (Ok (PyStr (str_int k2)), sample_config))
    /\ (forall parent rest c cfg',
          classified_ancestors Guidelines sample_p2 = parent :: rest ->
          dict_get_citetrail_mapping (get_xml_id parent) sample_config
          = (Ok (PyStr c), cfg') ->
          make_citetrail DictConfig
            (DocAnalysis := GuidelinesAnalysis_DocAnalysis
                              DictConfig dict_get_citetrail_mapping)
            Guidelines sample_head sample_config
          = (Ok (PyStr (c +:+ "." +:+ str_int k1)), cfg')
          /\ make_citetrail DictConfig
               (DocAnalysis := GuidelinesAnalysis_DocAnalysis
                                 DictConfig dict_get_citetrail_mapping)
               Guidelines sample_p2 sample_config
             = (Ok (PyStr (c +:+ "." +:+ str_int k2)), cfg')).
Proof.
  apply (ordinal_strictly_increasing DictConfig dict_get_citetrail_mapping
           sample_head sample_p2 sample_config).
  - vm_compute. right. right. left. reflexivity.
  - exists "basic". split; [vm_compute; reflexivity|discriminate].
  - exists "basic". split; [vm_compute; reflexivity|discriminate].
Defined.

(** C4, as stated, fails: [ProjectmembersAnalysis.make_citetrail] on the
    first division of the sample document raises nothing and returns the
    placeholder string. *)
Lemma stub_does_not_raise :
  fst (make_citetrail DictConfig
         (DocAnalysis := ProjectmembersAnalysis_DocAnalysis DictConfig)
         Projectmembers sample_div1 sample_config)
  = Ok (PyStr "placeholder")
  /\ ~ (exists e : exn,
          fst (make_citetrail DictConfig
                 (DocAnalysis := ProjectmembersAnalysis_DocAnalysis DictConfig)
                 Projectmembers sample_div1 sample_config)
          = Raise e).
Proof.
  split; [reflexivity|]. intros [e He]. discriminate He.
Qed.

(** * Further properties of [xutils.py] *)

(** ** [flatten] *)

Example flatten_sample :
  flatten [PLeaf 1; PList [PLeaf 2; PNone; PList [PLeaf 3]]; PNone; PList []]%nat
  = [1; 2; 3]%nat.
Proof. reflexivity. Qed.

Lemma flatten_app {A} (l1 l2 : list (pyobj A)) :
  flatten (l1 ++ l2) = flatten l1 ++ flatten l2.
Proof. unfold flatten. apply List.flat_map_app. Qed.

(** X6.  A nested list yields what its items would yield in its place, at any
    depth, and [None] yields nothing. *)
Theorem flatten_splice {A} (l1 l l2 : list (pyobj A)) :
  flatten (l1 ++ PList l :: l2) = flatten (l1 ++ l ++ l2)
  /\ flatten (l1 ++ PNone :: l2) = flatten (l1 ++ l2).
Proof.
  split.
  - rewrite !flatten_app. unfold flatten at 2. simpl.
    fold (flatten l). fold (flatten l2). reflexivity.
  - rewrite !flatten_app. reflexivity.
Qed.

(** X7.  A list without lists and [None] is yielded as it is; so flattening what
    [flatten] has yielded changes nothing. *)
Theorem flatten_flat {A} (xs : list A) (l : list (pyobj A)) :
  flatten (map PLeaf xs) = xs
  /\ flatten (map PLeaf (flatten l)) = flatten l.
Proof.
  assert (H : forall ys : list A, flatten (map PLeaf ys) = ys).
  { induction ys as [|y ys IH]; [reflexivity|].
    unfold flatten in *. simpl. rewrite IH. reflexivity. }
  split; apply H.
Qed.

(** ** [normalize_space] and [is_more_than_whitespace] *)

Example normalize_space_sample :
  normalize_space [32; 97; 9; 10; 98; 99; 32]%N = [97; 32; 98; 99]%N
  /\ normalize_space [32; 9]%N = [].
Proof. split; reflexivity. Qed.

Lemma split_from_words s : forall w,
  Forall (fun c => is_whitespace c = false) w ->
  Forall is_word (split_from w s).
Proof.
  induction s as [|c s IH]; simpl; intros w Hw.
  - destruct w; constructor; [|constructor]. split; [discriminate|exact Hw].
  - destruct (is_whitespace c) eqn:Hc.
    + destruct w as [|x w]; [apply IH; constructor|].
      constructor; [split; [discriminate|exact Hw]|apply IH; constructor].
    + apply IH. apply Forall_app. split; [exact Hw|].
      constructor; [exact Hc|constructor].
Qed.

Lemma split_from_concat s : forall w,
  concat (split_from w s)
  = w ++ List.filter (fun c => negb (is_whitespace c)) s.
Proof.
  induction s as [|c s IH]; simpl; intros w.
  - destruct w; simpl; rewrite ?app_nil_r; reflexivity.
  - destruct (is_whitespace c) eqn:Hc; simpl.
    + destruct w as [|x w]; simpl; rewrite IH; reflexivity.
    + rewrite IH, <- app_assoc. reflexivity.
Qed.

Lemma split_from_word u : forall w s,
  Forall (fun c => is_whitespace c = false) u ->
  split_from w (u ++ s) = split_from (w ++ u) s.
Proof.
  induction u as [|c u IH]; simpl; intros w s Hu.
  - rewrite app_nil_r. reflexivity.
  - inversion Hu as [|? ? Hc Hu']; subst. rewrite Hc.
    rewrite IH by exact Hu'. rewrite <- app_assoc. reflexivity.
Qed.

Lemma split_join ws :
  Forall is_word ws -> split (join [32%N] ws) = ws.
Proof.
  unfold split. induction ws as [|w ws IH]; intros Hws; [reflexivity|].
  inversion Hws as [|? ? [Hne Hw] Hws']; subst.
  destruct ws as [|w2 ws].
  - simpl. rewrite <- (app_nil_r w) at 1.
    rewrite split_from_word by exact Hw. simpl.
    destruct w; [contradiction|reflexivity].
  - change (join [32%N] (w :: w2 :: ws))
      with (w ++ [32%N] ++ join [32%N] (w2 :: ws)).
    rewrite split_from_word by exact Hw.
    specialize (IH Hws'). set (J := join [32%N] (w2 :: ws)) in *.
    destruct w as [|x w]; [contradiction|].
    simpl. rewrite IH. reflexivity.
Qed.

Lemma split_words s : Forall is_word (split s).
Proof. apply split_from_words. constructor. Qed.

(** X2.  [normalize_space] is idempotent. *)
Theorem normalize_space_idempotent (s : ustring) :
  normalize_space (normalize_space s) = normalize_space s.
Proof.
  unfold normalize_space. rewrite split_join by apply split_words.
  reflexivity.
Qed.

Lemma filter_word w :
  Forall (fun c => is_whitespace c = false) w ->
  List.filter (fun c => negb (is_whitespace c)) w = w.
Proof.
  induction 1 as [|c w Hc _ IH]; simpl; [reflexivity|].
  rewrite Hc, IH. reflexivity.
Qed.

Lemma filter_join ws :
  Forall is_word ws ->
  List.filter (fun c => negb (is_whitespace c)) (join [32%N] ws) = concat ws.
Proof.
  induction ws as [|w ws IH]; intros Hws; [reflexivity|].
  inversion Hws as [|? ? [_ Hw] Hws']; subst.
  destruct ws as [|w2 ws].
  - simpl. rewrite app_nil_r. apply filter_word, Hw.
  - change (join [32%N] (w :: w2 :: ws))
      with (w ++ [32%N] ++ join [32%N] (w2 :: ws)).
    rewrite !List.filter_app, filter_word, IH by assumption. reflexivity.
Qed.

(** X4.  [normalize_space] keeps the characters that are not whitespace, in
    their order, and changes whitespace only. *)
Theorem normalize_space_keeps_text (s : ustring) :
  List.filter (fun c => negb (is_whitespace c)) (normalize_space s)
  = List.filter (fun c => negb (is_whitespace c)) s.
Proof.
  unfold normalize_space. rewrite filter_join by apply split_words.
  unfold split. rewrite split_from_concat. reflexivity.
Qed.

Lemma single_spaced_word u : forall b s,
  u <> [] -> Forall (fun c => is_whitespace c = false) u ->
  single_spaced_from b (u ++ s) = single_spaced_from false s.
Proof.
  induction u as [|c u IH]; intros b s Hne Hu; [contradiction|].
  inversion Hu as [|? ? Hc Hu']; subst. simpl. rewrite Hc.
  destruct u as [|c2 u]; [reflexivity|].
  apply IH; [discriminate|exact Hu'].
Qed.

Lemma single_spaced_join ws :
  Forall is_word ws -> ws <> [] ->
  single_spaced_from true (join [32%N] ws) = true.
Proof.
  induction ws as [|w ws IH]; intros Hws Hne; [contradiction|].
  inversion Hws as [|? ? [Hw1 Hw2] Hws']; subst.
  destruct ws as [|w2 ws].
  - simpl. rewrite <- (app_nil_r w).
    rewrite single_spaced_word by assumption. reflexivity.
  - change (join [32%N] (w :: w2 :: ws))
      with (w ++ 32%N :: join [32%N] (w2 :: ws)).
    rewrite single_spaced_word by assumption.
    change (single_spaced_from false (32%N :: join [32%N] (w2 :: ws)))
      with (single_spaced_from true (join [32%N] (w2 :: ws))).
    apply IH; [exact Hws'|discriminate].
Qed.

Lemma join_split_single_spaced s :
  (forall w, w <> [] -> single_spaced_from false s = true ->
             join [32%N] (split_from w s) = w ++ s)
  /\ (single_spaced_from true s = true -> join [32%N] (split_from [] s) = s).
Proof.
  induction s as [|c s [IH1 IH2]]; split.
  - intros w Hw _. simpl. destruct w; [contradiction|].
    rewrite app_nil_r. reflexivity.
  - discriminate.
  - intros w Hw Hs. simpl in Hs |- *.
    destruct (is_whitespace c) eqn:Hc.
    + apply andb_true_iff in Hs. destruct Hs as [Hs Hs'].
      apply andb_true_iff in Hs. destruct Hs as [H32 _].
      apply N.eqb_eq in H32. subst c.
      destruct w as [|x w]; [contradiction|].
      specialize (IH2 Hs').
      destruct (split_from [] s) as [|w2 ws] eqn:Hsp.
      * simpl in IH2. subst s. discriminate Hs'.
      * change (join [32%N] ((x :: w) :: w2 :: ws))
          with ((x :: w) ++ 32%N :: join [32%N] (w2 :: ws)).
        rewrite IH2. reflexivity.
    + rewrite IH1; [rewrite <- app_assoc; reflexivity| |exact Hs].
      destruct w; discriminate.
  - intros Hs. simpl in Hs |- *.
    destruct (is_whitespace c) eqn:Hc.
    + rewrite andb_false_r in Hs. discriminate.
    + rewrite IH1; [reflexivity|discriminate|exact Hs].
Qed.

(** X3.  The strings [normalize_space] returns are the single-spaced ones: its
    result has no whitespace at either end, no whitespace but the space, and
    no two spaces in a row; and it returns such a string unchanged. *)
Theorem normalize_space_single_spaced (s : ustring) :
  single_spaced (normalize_space s) = true
  /\ (single_spaced s = true -> normalize_space s = s).
Proof.
  split.
  - unfold normalize_space, single_spaced.
    destruct (join [32%N] (split s)) as [|c r] eqn:Hj; [reflexivity|].
    rewrite <- Hj. apply single_spaced_join; [apply split_words|].
    intros Hnil. rewrite Hnil in Hj. discriminate.
  - unfold single_spaced, normalize_space, split.
    destruct s as [|c s]; [reflexivity|].
    apply (proj2 (join_split_single_spaced (c :: s))).
Qed.

Lemma normalize_space_single_spaced_witness :
  normalize_space [97; 32; 98]%N = [97; 32; 98]%N.
Proof.
  apply (proj2 (normalize_space_single_spaced [97; 32; 98]%N)).
  vm_compute. reflexivity.
Defined.

(** X5.  After [normalize_space], [is_more_than_whitespace] tells whether the
    original string has a character that is not whitespace. *)
Theorem is_more_than_whitespace_normalized (s : ustring) :
  is_more_than_whitespace (normalize_space s) = contains_non_whitespace s.
Proof.
  unfold contains_non_whitespace.
  pose proof (split_from_concat s []) as Hcat. simpl in Hcat.
  rewrite <- boolean_filter, <- Hcat.
  rewrite is_more_than_whitespace_first. unfold normalize_space.
  fold (split s). pose proof (split_words s) as Hws.
  destruct (split s) as [|w ws]; [reflexivity|].
  inversion Hws as [|? ? [Hne Hw] _]; subst.
  destruct w as [|c w]; [contradiction|].
  inversion Hw as [|? ? Hc _]; subst.
  destruct ws; simpl; rewrite Hc; reflexivity.
Qed.

(** X1.  [is_more_than_whitespace] holds exactly when the string starts with a
    character that is not whitespace; then the string contains one, and on
    the empty string it is false. *)
Theorem is_more_than_whitespace_iff (s : ustring) :
  (is_more_than_whitespace s = true
   <-> exists c rest, s = c :: rest /\ is_whitespace c = false)
  /\ (is_more_than_whitespace s = true -> contains_non_whitespace s = true).
Proof.
  split; [|apply is_more_than_whitespace_sound].
  rewrite is_more_than_whitespace_first. destruct s as [|c s].
  - split; [discriminate|]. intros (c & r & H & _). discriminate H.
  - rewrite negb_true_iff. split.
    + intros Hc. exists c, s. split; [reflexivity|exact Hc].
    + intros (c' & r & [= <- <-] & Hc). exact Hc.
Qed.

Lemma is_more_than_whitespace_iff_witness :
  contains_non_whitespace [97; 32]%N = true.
Proof.
  apply (proj2 (is_more_than_whitespace_iff [97; 32]%N)).
  vm_compute. reflexivity.
Defined.

(** ** [get_xml_id] *)

Lemma qname_eqb_eq a b : qname_eqb a b = true <-> a = b.
Proof.
  unfold qname_eqb. destruct a as [u l], b as [u' l']. simpl.
  rewrite andb_true_iff, !String.eqb_eq. split.
  - intros [-> ->]. reflexivity.
  - intros [= -> ->]. split; reflexivity.
Qed.

Lemma qname_eqb_refl a : qname_eqb a a = true.
Proof. apply qname_eqb_eq. reflexivity. Qed.

Lemma filter_key_nodup (k : qname) (l : list (qname * string)) :
  NoDup (map fst l) ->
  List.filter (fun kv => qname_eqb (fst kv) k) l
  = match List.find (fun kv => qname_eqb (fst kv) k) l with
    | Some kv => [kv]
    | None => []
    end.
Proof.
  induction l as [|[k' v] l IH]; intros Hnd; [reflexivity|].
  apply NoDup_cons in Hnd. destruct Hnd as [Hk' Hnd]. simpl.
  destruct (qname_eqb k' k) eqn:E.
  - apply qname_eqb_eq in E. subst k'. f_equal.
    rewrite (filter_ext_in _ (fun _ => false)).
    + clear. induction l; [reflexivity|assumption].
    + intros [k2 v2] Hin. simpl.
      destruct (qname_eqb k2 k) eqn:E2; [|reflexivity].
      apply qname_eqb_eq in E2. subst k2. exfalso. apply Hk'.
      apply list_elem_of_In. apply (List.in_map fst _ _ Hin).
  - apply IH, Hnd.
Qed.

Lemma get_xml_id_nodup (n : node) :
  NoDup (map fst (items (focus n))) ->
  get_xml_id n
  = default "" (attribute_value (attr_prefixed "xml" "id") n)
  /\ (any_element n = false -> get_xml_id n = "").
Proof.
  intros Hnd. unfold get_xml_id, axis_attribute, attribute_value, any_element.
  destruct (focus n) as [h ch| |]; [|split; reflexivity..].
  simpl in Hnd. rewrite (filter_key_nodup _ _ Hnd).
  split; [|discriminate].
  destruct (List.find _ (attrib h)); reflexivity.
Qed.

(** X9.  On a node whose attribute names are distinct, as in any parsed
    document, [get_xml_id] is the value of [xml:id], or the empty string
    when there is none; never [None].  Comments and processing
    instructions get the empty string. *)
Theorem get_xml_id_value (n : node) :
  NoDup (map fst (items (focus n))) ->
  get_xml_id n
  = default "" (attribute_value (attr_prefixed "xml" "id") n)
  /\ (any_element n = false -> get_xml_id n = "").
Proof. apply get_xml_id_nodup. Qed.

Lemma get_xml_id_value_witness :
  get_xml_id sample_div1
  = default "" (attribute_value (attr_prefixed "xml" "id") sample_div1)
  /\ (any_element sample_div1 = false -> get_xml_id sample_div1 = "").
Proof.
  apply (get_xml_id_value sample_div1).
  vm_compute. apply NoDup_cons. split; [|apply NoDup_nil_2].
  apply not_elem_of_nil.
Defined.

(** ** [get_list_type] *)

Lemma axis_ancestor_cons t f c :
  axis_ancestor (Node t (f :: c))
  = Node (plug f t) c :: axis_ancestor (Node (plug f t) c).
Proof. reflexivity. Qed.

Lemma get_list_type_value (n : node) :
  get_list_type n = Ok (PyStr (list_type_reference n)).
Proof.
  unfold get_list_type, list_type_reference, exists_, path_, first.
  rewrite where_self, typed_list_tests, typed_list_ancestors.
  destruct (typed_list n) eqn:Hn.
  - rewrite node_get_value. unfold typed_list in Hn.
    destruct (attribute_value (attr_plain "type") n); [reflexivity|].
    rewrite andb_false_r in Hn. discriminate.
  - rewrite <- head_filter_find.
    destruct (List.filter typed_list (axis_ancestor n)) as [|a l] eqn:Hl;
      [reflexivity|].
    assert (Ha : typed_list a = true).
    { assert (Hin : In a (List.filter typed_list (axis_ancestor n)))
        by (rewrite Hl; left; reflexivity).
      apply List.filter_In in Hin. apply Hin. }
    simpl. rewrite app_nil_r. unfold py_index.
    rewrite <- head_lookup, axis_attribute_head. unfold typed_list in Ha.
    destruct (attribute_value (attr_plain "type") a); [reflexivity|].
    rewrite andb_false_r in Ha. discriminate.
Qed.

(** X10.  List types are inherited: a node that is not itself a typed [tei:list]
    has the list type of its parent. *)
Theorem get_list_type_inherited (t : tree) (f : frame) (c : list frame) :
  typed_list (Node t (f :: c)) = false ->
  get_list_type (Node t (f :: c)) = get_list_type (Node (plug f t) c).
Proof.
  intros Hn. rewrite !get_list_type_value. unfold list_type_reference.
  rewrite Hn, axis_ancestor_cons. simpl List.find.
  destruct (typed_list (Node (plug f t) c)); reflexivity.
Qed.

Lemma get_list_type_inherited_witness :
  get_list_type sample_item = get_list_type sample_list.
Proof.
  apply (get_list_type_inherited (focus sample_item)
           (Frame (Header (tei "list") [(attr_plain "type", "ordered")]
                     None None) [] [])
           (context sample_list)).
  vm_compute. reflexivity.
Defined.

(** ** [copy_attributes] *)

Example copy_attributes_sample :
  copy_attributes
    (elem "a" [(attr_plain "n", "1"); (attr_plain "m", "2")] [])
    (elem "b" [(attr_plain "k", "0"); (attr_plain "n", "9")] [Comment "c" None])
  = Ok (elem "b" [(attr_plain "k", "0"); (attr_plain "n", "1");
                  (attr_plain "m", "2")] [Comment "c" None]).
Proof. reflexivity. Qed.

Lemma first_value_set k name value l :
  first_value k (attrib_set name value l)
  = if qname_eqb name k then Some value else first_value k l.
Proof.
  unfold first_value. induction l as [|[k' v'] l IH]; simpl.
  - destruct (qname_eqb name k); reflexivity.
  - destruct (qname_eqb k' name) eqn:E; simpl.
    + apply qname_eqb_eq in E. subst k'.
      destruct (qname_eqb name k); reflexivity.
    + destruct (qname_eqb k' k) eqn:E2; simpl.
      * destruct (qname_eqb name k) eqn:E3; [|reflexivity].
        apply qname_eqb_eq in E2, E3. subst.
        rewrite qname_eqb_refl in E. discriminate.
      * exact IH.
Qed.

Lemma keys_set name value l :
  map fst (attrib_set name value l)
  = if existsb (fun kv => qname_eqb (fst kv) name) l
    then map fst l else map fst l ++ [name].
Proof.
  induction l as [|[k' v'] l IH]; simpl; [reflexivity|].
  destruct (qname_eqb k' name) eqn:E; simpl; [reflexivity|].
  rewrite IH. destruct (existsb _ l); reflexivity.
Qed.

(** The attributes [to_elem] ends with when the loop runs over [its]. *)
Lemma copy_attributes_element its : forall h ch,
  foldl (fun acc kv => t ← acc; set_attribute t (fst kv) (snd kv))
        (Ok (Element h ch)) its
  = Ok (Element
          (Header (tag h)
             (foldl (fun l kv => attrib_set (fst kv) (snd kv) l) (attrib h) its)
             (text h) (tail h)) ch).
Proof.
  induction its as [|kv its IH]; intros h ch; simpl.
  - destruct h; reflexivity.
  - change (Ok (Element h ch) ≫= _)
      with (set_attribute (Element h ch) (fst kv) (snd kv)).
    unfold set_attribute. rewrite IH. reflexivity.
Qed.

Lemma find_app {A} (p : A -> bool) l1 l2 :
  List.find p (l1 ++ l2)
  = match List.find p l1 with
    | Some x => Some x
    | None => List.find p l2
    end.
Proof.
  induction l1 as [|x l1 IH]; simpl; [reflexivity|].
  destruct (p x); [reflexivity|exact IH].
Qed.

Lemma first_value_copy k its : forall l,
  first_value k (foldl (fun l kv => attrib_set (fst kv) (snd kv) l) l its)
  = match last_value k its with
    | Some v => Some v
    | None => first_value k l
    end.
Proof.
  unfold last_value.
  induction its as [|[k' v'] its IH]; intros l; simpl; [reflexivity|].
  rewrite IH, first_value_set, find_app.
  destruct (List.find _ (rev its)); simpl; [reflexivity|].
  destruct (qname_eqb k' k); reflexivity.
Qed.

Lemma keys_copy its : forall l,
  exists extra,
    map fst (foldl (fun l kv => attrib_set (fst kv) (snd kv) l) l its)
    = map fst l ++ extra.
Proof.
  induction its as [|kv its IH]; intros l; simpl.
  - exists []. rewrite app_nil_r. reflexivity.
  - destruct (IH (attrib_set (fst kv) (snd kv) l)) as [extra He].
    rewrite He, keys_set. destruct (existsb _ l).
    + exists extra. reflexivity.
    + exists (fst kv :: extra). rewrite <- app_assoc. reflexivity.
Qed.

(** X11.  Copying onto an element succeeds.  Afterwards an attribute that
    [from_elem] has carries the value [from_elem] gives it, every other
    attribute of [to_elem] has the value it had, and tag, text, tail and
    children of [to_elem] are as before. *)
Theorem copy_attributes_values (from_elem : tree) (h : header)
    (ch : list tree) :
  exists at_,
    copy_attributes from_elem (Element h ch)
    = Ok (Element (Header (tag h) at_ (text h) (tail h)) ch)
    /\ forall k,
         first_value k at_
         = match last_value k (items from_elem) with
           | Some v => Some v
           | None => first_value k (attrib h)
           end.
Proof.
  unfold copy_attributes. rewrite copy_attributes_element.
  eexists. split; [reflexivity|]. intros k. apply first_value_copy.
Qed.

(** X12.  Copying keeps the attributes of [to_elem] where they are: the names
    of its attributes afterwards are its former names, in their order,
    followed by new ones. *)
Theorem copy_attributes_order (from_elem : tree) (h : header)
    (ch : list tree) :
  exists t extra,
    copy_attributes from_elem (Element h ch) = Ok t
    /\ map fst (items t) = map fst (attrib h) ++ extra.
Proof.
  unfold copy_attributes. rewrite copy_attributes_element.
  destruct (keys_copy (items from_elem) (attrib h)) as [extra He].
  eexists. exists extra. split; [reflexivity|]. exact He.
Qed.

Lemma foldl_raise (its : list (qname * string)) e :
  foldl (fun acc kv => t ← acc; set_attribute t (fst kv) (snd kv))
        (Raise e) its = Raise e.
Proof. induction its as [|kv its IH]; simpl; [reflexivity|exact IH]. Qed.

(** X13.  Copying onto a comment or a processing instruction raises [TypeError]
    when [from_elem] has an attribute, and does nothing when it has none. *)
Theorem copy_attributes_onto_comment (from_elem to_elem : tree) :
  any_element (Node to_elem []) = false ->
  copy_attributes from_elem to_elem
  = match items from_elem with
    | [] => Ok to_elem
    | _ :: _ => Raise TypeError
    end.
Proof.
  unfold any_element, copy_attributes. simpl. intros Hto.
  destruct (items from_elem) as [|kv its]; [reflexivity|]. simpl.
  destruct to_elem; [discriminate|apply foldl_raise..].
Qed.

Lemma copy_attributes_onto_comment_witness :
  copy_attributes (elem "div" [xml_id "d1"] []) (Comment "c" None)
  = Raise TypeError.
Proof.
  apply (copy_attributes_onto_comment (elem "div" [xml_id "d1"] [])
           (Comment "c" None)).
  reflexivity.
Defined.

Lemma nodup_keys_set name value l :
  NoDup (map fst l) -> NoDup (map fst (attrib_set name value l)).
Proof.
  intros Hnd. rewrite keys_set.
  destruct (existsb _ l) eqn:E; [exact Hnd|].
  apply NoDup_app. split; [exact Hnd|]. split.
  - intros k Hk Hk'. apply list_elem_of_singleton in Hk'. subst k.
    apply list_elem_of_In, List.in_map_iff in Hk.
    destruct Hk as ([k v] & Hfst & Hin). simpl in Hfst. subst k.
    rewrite existsb_false_forall in E. specialize (E _ Hin). simpl in E.
    rewrite qname_eqb_refl in E. discriminate.
  - apply NoDup_singleton.
Qed.

Lemma nodup_keys_copy its : forall l,
  NoDup (map fst l) ->
  NoDup (map fst (foldl (fun l kv => attrib_set (fst kv) (snd kv) l) l its)).
Proof.
  induction its as [|kv its IH]; intros l Hnd; simpl; [exact Hnd|].
  apply IH, nodup_keys_set, Hnd.
Qed.

(** X14.  Copying copies the stable identifier: when the attribute names of both
    elements are distinct and [from_elem] has an [xml:id], [to_elem] has
    the same [get_xml_id] afterwards, wherever it stands. *)
Theorem copy_attributes_xml_id (hf h : header) (chf ch : list tree)
    (cf c : list frame) (v : string) :
  NoDup (map fst (attrib hf)) ->
  NoDup (map fst (attrib h)) ->
  get_xml_id (Node (Element hf chf) cf) = v -> v <> "" ->
  exists t,
    copy_attributes (Element hf chf) (Element h ch) = Ok t
    /\ get_xml_id (Node t c) = v.
Proof.
  intros Hf Hto Hid Hv.
  unfold copy_attributes. rewrite copy_attributes_element.
  eexists. split; [reflexivity|].
  destruct (get_xml_id_nodup (Node (Element hf chf) cf) Hf) as [Hidf _].
  rewrite Hid in Hidf.
  match goal with
  | |- get_xml_id ?m = _ =>
      destruct (get_xml_id_nodup m) as [Hidt _];
        [apply nodup_keys_copy, Hto|rewrite Hidt]
  end.
  unfold attribute_value in *. simpl in *.
  fold (first_value (attr_prefixed "xml" "id") (attrib hf)) in Hidf.
  match goal with
  | |- context [List.find ?p ?l] =>
      change (snd <$> List.find p l)
        with (first_value (attr_prefixed "xml" "id") l)
  end.
  rewrite first_value_copy. unfold last_value, first_value in *.
  assert (Hlast :
    snd <$> List.find (fun kv => qname_eqb (fst kv) (attr_prefixed "xml" "id"))
              (rev (attrib hf))
    = snd <$> List.find (fun kv => qname_eqb (fst kv) (attr_prefixed "xml" "id"))
                (attrib hf)).
  { rewrite <- !head_filter_find, filter_rev.
    rewrite (filter_key_nodup _ _ Hf).
    destruct (List.find _ (attrib hf)); reflexivity. }
  rewrite Hlast.
  destruct (List.find _ (attrib hf)) as [kv|]; simpl in *;
    [symmetry; exact Hidf|]. subst v. contradiction.
Qed.

Lemma copy_attributes_xml_id_witness :
  exists t,
    copy_attributes (focus sample_div1) (focus sample_div2) = Ok t
    /\ get_xml_id (Node t (context sample_div2)) = "d1".
Proof.
  apply (copy_attributes_xml_id
           (Header (tei "div") [xml_id "d1"] None None)
           (Header (tei "div") [xml_id "d2"] None None)
           _ [] (context sample_div1) (context sample_div2) "d1").
  - apply NoDup_cons. split; [apply not_elem_of_nil|apply NoDup_nil_2].
  - apply NoDup_cons. split; [apply not_elem_of_nil|apply NoDup_nil_2].
  - vm_compute. reflexivity.
  - discriminate.
Defined.

(** ** [get_node_by_xmlid] *)

Lemma tree_nested_ind (P : tree -> Prop) :
  (forall h ch, Forall P ch -> P (Element h ch)) ->
  (forall s tl, P (Comment s tl)) ->
  (forall a b tl, P (ProcessingInstruction a b tl)) ->
  forall t, P t.
Proof.
  intros HE HC HP. fix IH 1. intros [h ch|s tl|a b tl].
  - apply HE. induction ch as [|x ch IHch]; constructor.
    + apply IH.
    + exact IHch.
  - apply HC.
  - apply HP.
Qed.

Lemma children_from_frame h c m : forall rs acc,
  In m (children_from h acc rs c) ->
  In (focus m) rs
  /\ exists ls' rs',
       context m = Frame h ls' rs' :: c
       /\ rev_append ls' (focus m :: rs') = rev_append acc rs.
Proof.
  induction rs as [|r rs IH]; simpl; intros acc Hm; [contradiction|].
  destruct Hm as [<-|Hm].
  - split; [left; reflexivity|]. exists acc, rs. split; reflexivity.
  - destruct (IH _ Hm) as [Hin (ls' & rs' & Hc & Hr)].
    split; [right; exact Hin|]. exists ls', rs'. split; assumption.
Qed.

Lemma children_from_mem h c t rs : forall pre acc,
  In (Node t (Frame h (rev pre ++ acc) rs :: c))
     (children_from h acc (pre ++ t :: rs) c).
Proof.
  induction pre as [|x pre IH]; intros acc; simpl.
  - left. reflexivity.
  - right. rewrite <- app_assoc. apply IH.
Qed.

Lemma child_of_parent t f c :
  In (Node t (f :: c)) (axis_child (Node (plug f t) c)).
Proof.
  destruct f as [h ls rs]. unfold axis_child, plug. simpl.
  rewrite List.rev_append_rev.
  pose proof (children_from_mem h c t rs (rev ls) []) as H.
  rewrite List.rev_involutive, app_nil_r in H. exact H.
Qed.

Lemma child_root t c m :
  In m (axis_child (Node t c)) ->
  root_tree (focus m) (context m) = root_tree t c.
Proof.
  unfold axis_child. simpl. destruct t as [h ch| |]; try contradiction.
  intros Hm. destruct (children_from_frame _ _ _ _ _ Hm)
    as [_ (ls' & rs' & Hc & Hr)].
  rewrite Hc. simpl. unfold plug. simpl. rewrite Hr. reflexivity.
Qed.

Lemma child_focus h ch c m :
  In m (axis_child (Node (Element h ch) c)) -> In (focus m) ch.
Proof.
  unfold axis_child. simpl. intros Hm.
  apply (children_from_frame _ _ _ _ _ Hm).
Qed.

Lemma descendants_unfold t c :
  descendants_or_self t c
  = Node t c ::
    flat_map (fun m => descendants_or_self (focus m) (context m))
      (axis_child (Node t c)).
Proof.
  destruct t as [h ch| |]; [|reflexivity..].
  unfold axis_child. simpl. f_equal.
  generalize (@nil tree) as ls.
  induction ch as [|r rs IH]; intros ls; simpl; [reflexivity|].
  rewrite IH. reflexivity.
Qed.

Lemma descendants_root t : forall c m,
  In m (descendants_or_self t c) ->
  root_tree (focus m) (context m) = root_tree t c.
Proof.
  induction t as [h ch IH| |] using tree_nested_ind; intros c m;
    rewrite descendants_unfold; intros [<-|Hm]; try reflexivity;
    try contradiction.
  apply List.in_flat_map in Hm. destruct Hm as (k & Hk & Hm).
  rewrite List.Forall_forall in IH.
  rewrite (IH _ (child_focus _ _ _ _ Hk) _ _ Hm).
  apply child_root, Hk.
Qed.

Lemma descendants_trans r : forall cr m x,
  In m (descendants_or_self r cr) ->
  In x (descendants_or_self (focus m) (context m)) ->
  In x (descendants_or_self r cr).
Proof.
  induction r as [h ch IH| |] using tree_nested_ind; intros cr m x Hm Hx;
    rewrite descendants_unfold in Hm; destruct Hm as [<-|Hm];
    try exact Hx; try contradiction.
  rewrite descendants_unfold. right.
  apply List.in_flat_map in Hm. destruct Hm as (k & Hk & Hm).
  apply List.in_flat_map. exists k. split; [exact Hk|].
  rewrite List.Forall_forall in IH.
  exact (IH _ (child_focus _ _ _ _ Hk) _ _ _ Hm Hx).
Qed.

Lemma self_in_document c : forall t,
  In (Node t c) (descendants_or_self (root_tree t c) []).
Proof.
  induction c as [|f c IH]; intros t.
  - change (root_tree t []) with t.
    rewrite descendants_unfold. left. reflexivity.
  - change (root_tree t (f :: c)) with (root_tree (plug f t) c).
    apply (descendants_trans _ _ (Node (plug f t) c) _ (IH (plug f t))).
    change (In (Node t (f :: c)) (descendants_or_self (plug f t) c)).
    rewrite descendants_unfold. right.
    apply List.in_flat_map. exists (Node t (f :: c)).
    split; [apply child_of_parent|].
    change (In (Node t (f :: c)) (descendants_or_self t (f :: c))).
    rewrite descendants_unfold. left. reflexivity.
Qed.

(** X15.  Every node [get_node_by_xmlid] returns is an element of the document
    of the context node, and carries the [xml:id] asked for. *)
Theorem get_node_by_xmlid_sound (n : node) (xmlid : string)
    (l : list node) (m : node) :
  get_node_by_xmlid n xmlid = Ok l -> In m l ->
  any_element m = true
  /\ In xmlid (axis_attribute (attr_prefixed "xml" "id") m)
  /\ root_tree (focus m) (context m) = root_tree (focus n) (context n).
Proof.
  unfold get_node_by_xmlid, xpath_call.
  destruct (any_element n); [|discriminate]. intros [= <-] Hm.
  unfold where_, all_elements in Hm.
  apply List.filter_In in Hm. destruct Hm as [Hm Hid].
  apply List.filter_In in Hm. destruct Hm as [Hm He].
  split; [exact He|]. split.
  - apply List.existsb_exists in Hid. destruct Hid as (v & Hv & Heq).
    apply String.eqb_eq in Heq. subst v. exact Hv.
  - exact (descendants_root _ _ _ Hm).
Qed.

Lemma get_node_by_xmlid_sound_witness :
  any_element sample_div1 = true
  /\ In "d1" (axis_attribute (attr_prefixed "xml" "id") sample_div1)
  /\ root_tree (focus sample_div1) (context sample_div1)
     = root_tree (focus sample_p2) (context sample_p2).
Proof.
  apply (get_node_by_xmlid_sound sample_p2 "d1" [sample_div1] sample_div1).
  - vm_compute. reflexivity.
  - left. reflexivity.
Defined.

(** X16.  Asked from an element for that element's own identifier,
    [get_node_by_xmlid] returns a list that holds the element. *)
Theorem get_node_by_xmlid_finds_self (n : node) (xmlid : string) :
  any_element n = true -> get_xml_id n = xmlid -> xmlid <> "" ->
  exists l, get_node_by_xmlid n xmlid = Ok l /\ In n l.
Proof.
  intros He Hid Hne. unfold get_node_by_xmlid.
  rewrite xpath_call_element by exact He.
  eexists. split; [reflexivity|].
  unfold where_, all_elements. apply List.filter_In. split.
  - apply List.filter_In. split; [|exact He].
    destruct n as [t c]. apply self_in_document.
  - unfold get_xml_id in Hid.
    destruct (axis_attribute (attr_prefixed "xml" "id") n) as [|v [|v2 r]];
      simpl in Hid; try (subst xmlid; contradiction).
    subst v. simpl. rewrite String.eqb_refl. reflexivity.
Qed.

Lemma get_node_by_xmlid_finds_self_witness :
  exists l, get_node_by_xmlid sample_div2 "d2" = Ok l /\ In sample_div2 l.
Proof.
  apply (get_node_by_xmlid_finds_self sample_div2 "d2").
  - vm_compute. reflexivity.
  - vm_compute. reflexivity.
  - discriminate.
Defined.

(** * Further properties of [analysis.py] *)

(** ** The grammars of the three variants *)

Lemma is_tei_same a b n : is_tei a n = true -> is_tei b n = true -> a = b.
Proof.
  unfold is_tei. destruct (focus n) as [h ch| |]; try discriminate.
  intros Ha Hb. apply qname_eqb_eq in Ha, Hb. rewrite Ha in Hb.
  injection Hb as Hb. exact Hb.
Qed.

Lemma is_tei_differ a b n : a <> b -> is_tei a n && is_tei b n = false.
Proof.
  intros Hab. destruct (is_tei a n) eqn:Ha; [|reflexivity].
  destruct (is_tei b n) eqn:Hb; [|reflexivity].
  exfalso. exact (Hab (is_tei_same a b n Ha Hb)).
Qed.

Lemma existsb_name_test loc l :
  existsb (name_test "tei" loc) l = existsb (is_tei loc) l.
Proof. apply existsb_ext_in. intros a _. apply name_test_tei. Qed.

(** X17.  In the Guidelines a [tei:div] is structural when it lies inside a
    [tei:text], whatever else encloses it, and is not classified when it
    does not, as inside the header. *)
Theorem guidelines_div (n : node) :
  is_tei "div" n = true ->
  get_node_type Guidelines n
  = Ok (if existsb (is_tei "text") (axis_ancestor n) then "structural"
        else "").
Proof.
  intros Hd. rewrite (guidelines_type_element n (is_tei_element _ _ Hd)).
  rewrite guidelines_structural_def, Hd. simpl andb.
  destruct (existsb (is_tei "text") (axis_ancestor n)); [reflexivity|].
  rewrite guidelines_basic_xpath.
  assert (Hl : leaf_pattern n = false).
  { destruct (leaf_pattern n) eqn:Hl; [|reflexivity].
    rewrite (leaf_pattern_not_div n Hl) in Hd. discriminate. }
  rewrite Hl. reflexivity.
Qed.

Lemma guidelines_div_witness :
  get_node_type Guidelines sample_div1 = Ok "structural".
Proof.
  apply (guidelines_div sample_div1). vm_compute. reflexivity.
Defined.

Lemma members_structural n :
  boolean (ProjectmembersGrammar.structural_node_def n)
  = is_tei "listPerson" n && existsb (is_tei "text") (axis_ancestor n).
Proof.
  unfold ProjectmembersGrammar.structural_node_def.
  rewrite where_self, boolean_step, name_test_tei, existsb_name_test.
  reflexivity.
Qed.

Lemma members_leaf n : ProjectmembersGrammar.leaf n = members_leaf_pattern n.
Proof.
  unfold ProjectmembersGrammar.leaf, members_leaf_pattern.
  rewrite !boolean_self, !name_test_tei. reflexivity.
Qed.

(** X18.  The node type of an element in the project-members listing, from the
    names of the element and of its ancestors: structural for a
    [tei:listPerson] inside a [tei:text]; basic for a heading, organization
    or person that has no such ancestor and has a structural one. *)
Theorem projectmembers_node_type (n : node) :
  any_element n = true ->
  get_node_type Projectmembers n
  = Ok (if is_tei "listPerson" n && existsb (is_tei "text") (axis_ancestor n)
        then "structural"
        else if members_leaf_pattern n
                && negb (existsb members_leaf_pattern (axis_ancestor n))
                && existsb (fun a => is_tei "listPerson" a
                                     && existsb (is_tei "text") (axis_ancestor a))
                     (axis_ancestor n)
        then "basic" else "").
Proof.
  intros Hn. unfold get_node_type. simpl.
  rewrite !xpath_call_element by exact Hn. simpl.
  rewrite members_structural.
  unfold ProjectmembersGrammar.basic_node_def.
  rewrite !boolean_where, step_ancestor_any, members_leaf.
  rewrite (existsb_ext_in ProjectmembersGrammar.leaf members_leaf_pattern)
    by (intros a _; apply members_leaf).
  rewrite (existsb_ext_in
             (fun m => boolean (ProjectmembersGrammar.structural_node_def m))
             (fun a => is_tei "listPerson" a
                       && existsb (is_tei "text") (axis_ancestor a)))
    by (intros a _; apply members_structural).
  destruct (is_tei "listPerson" n && _); [reflexivity|].
  destruct (members_leaf_pattern n && _ && _); reflexivity.
Qed.

Lemma projectmembers_node_type_witness :
  get_node_type Projectmembers sample_head = Ok "".
Proof.
  rewrite (projectmembers_node_type sample_head); vm_compute; reflexivity.
Defined.

Lemma chars_structural n :
  boolean (SpecialcharsGrammar.structural_node_def n)
  = is_tei "charDecl" n && existsb (is_tei "teiHeader") (axis_ancestor n).
Proof.
  unfold SpecialcharsGrammar.structural_node_def.
  rewrite where_self, boolean_step, name_test_tei, existsb_name_test.
  reflexivity.
Qed.

(** X19.  The node type of an element in the special-characters declaration:
    structural for a [tei:charDecl] inside a [tei:teiHeader]; basic for a
    [tei:char] that has a structural ancestor, also when it lies inside
    another [tei:char]. *)
Theorem specialchars_node_type (n : node) :
  any_element n = true ->
  get_node_type Specialchars n
  = Ok (if is_tei "charDecl" n
           && existsb (is_tei "teiHeader") (axis_ancestor n)
        then "structural"
        else if is_tei "char" n
                && existsb (fun a => is_tei "charDecl" a
                                     && existsb (is_tei "teiHeader")
                                          (axis_ancestor a))
                     (axis_ancestor n)
        then "basic" else "").
Proof.
  intros Hn. unfold get_node_type. simpl is_structural_node.
  simpl is_basic_node. rewrite !xpath_call_element by exact Hn.
  unfold SpecialcharsGrammar.is_structural_node_xpath,
    SpecialcharsGrammar.is_basic_node_xpath.
  cbn [mbind result_bind truthy].
  rewrite chars_structural.
  unfold SpecialcharsGrammar.basic_node_def.
  rewrite (boolean_self (name_test "tei" "char") n).
  rewrite (name_test_tei "char" n).
  rewrite (boolean_where (step axis_ancestor any_element)), step_ancestor_any.
  rewrite (existsb_ext_in
             (fun m => boolean (SpecialcharsGrammar.structural_node_def m))
             (fun a => is_tei "charDecl" a
                       && existsb (is_tei "teiHeader") (axis_ancestor a)))
    by (intros a _; apply chars_structural).
  destruct (is_tei "charDecl" n && _); [reflexivity|].
  destruct (is_tei "char" n && _); reflexivity.
Qed.

Lemma specialchars_node_type_witness :
  get_node_type Specialchars sample_head = Ok "".
Proof.
  rewrite (specialchars_node_type sample_head); vm_compute; reflexivity.
Defined.

(** X20.  In each variant no node is both structural and basic: the order in
    which [get_node_type] asks the two predicates decides nothing. *)
Theorem structural_basic_exclusive (n : node) :
  (forall s b, is_structural_node Guidelines n = Ok s ->
               is_basic_node Guidelines n = Ok b ->
               truthy s && truthy b = false)
  /\ (forall s b, is_structural_node Projectmembers n = Ok s ->
                  is_basic_node Projectmembers n = Ok b ->
                  truthy s && truthy b = false)
  /\ (forall s b, is_structural_node Specialchars n = Ok s ->
                  is_basic_node Specialchars n = Ok b ->
                  truthy s && truthy b = false).
Proof.
  split; [|split]; intros s b; simpl; unfold xpath_call;
    destruct (any_element n); try discriminate; intros [= <-] [= <-].
  - change (truthy (GuidelinesGrammar.is_structural_node_xpath n))
      with (GuidelinesGrammar.structural_node_def n).
    rewrite guidelines_structural_def, guidelines_basic_xpath.
    destruct (leaf_pattern n) eqn:Hl; [|rewrite andb_false_r; reflexivity].
    rewrite (leaf_pattern_not_div n Hl). reflexivity.
  - simpl. rewrite members_structural.
    unfold ProjectmembersGrammar.basic_node_def. rewrite members_leaf.
    unfold members_leaf_pattern.
    pose proof (is_tei_differ "listPerson" "head" n) as H1.
    pose proof (is_tei_differ "listPerson" "org" n) as H2.
    pose proof (is_tei_differ "listPerson" "person" n) as H3.
    destruct (is_tei "listPerson" n); [|reflexivity].
    simpl in H1, H2, H3.
    rewrite H1, H2, H3 by discriminate. cbn [orb andb].
    apply andb_false_r.
  - simpl. rewrite chars_structural.
    unfold SpecialcharsGrammar.basic_node_def.
    rewrite (boolean_self (name_test "tei" "char") n).
    rewrite (name_test_tei "char" n).
    pose proof (is_tei_differ "charDecl" "char" n) as H1.
    destruct (is_tei "charDecl" n); [|reflexivity].
    simpl in H1. rewrite H1 by discriminate. cbn [orb andb].
    apply andb_false_r.
Qed.

Lemma structural_basic_exclusive_witness :
  truthy (GuidelinesGrammar.is_structural_node_xpath sample_div1)
  && truthy (GuidelinesGrammar.is_basic_node_xpath sample_div1) = false.
Proof.
  apply (proj1 (structural_basic_exclusive sample_div1)).
  - vm_compute. reflexivity.
  - vm_compute. reflexivity.
Defined.

(** ** Citetrail ancestors *)

Lemma guidelines_structural_ancestors (n : node) :
  get_citetrail_ancestors Guidelines n
  = Ok (List.filter structural_by_name (axis_ancestor n)).
Proof.
  unfold get_citetrail_ancestors, document_order_of_reverse.
  rewrite step_ancestor_any.
  rewrite (comprehension_ok _ GuidelinesGrammar.structural_node_def).
  - cbn [mbind result_bind]. rewrite filter_rev, List.rev_involutive.
    f_equal. apply filter_ext_in. intros a _.
    apply guidelines_structural_def.
  - intros a Ha. apply List.in_rev in Ha. simpl.
    rewrite xpath_call_element
      by exact (ancestors_from_elements _ _ _ Ha).
    reflexivity.
Qed.

(** X21.  [get_citetrail_ancestors] of the Guidelines never raises, whatever the
    node: it returns the ancestors that are a [tei:div] inside a
    [tei:text], the nearest first. *)
Theorem get_citetrail_ancestors_guidelines (n : node) :
  get_citetrail_ancestors Guidelines n
  = Ok (List.filter structural_by_name (axis_ancestor n)).
Proof. apply guidelines_structural_ancestors. Qed.




(** ** Ordinals depend on names only *)












(** ** The sample document again *)

Lemma make_citetrail_raises_witness :
  make_citetrail DictConfig
    (DocAnalysis := GuidelinesAnalysis_DocAnalysis
                      DictConfig dict_get_citetrail_mapping)
    Guidelines sample_p1 {| citetrail_mapping := ∅ |}
  = (Raise TypeError, {| citetrail_mapping := ∅ |}).
Proof.
  apply (proj1 (make_citetrail_raises DictConfig dict_get_citetrail_mapping
                  sample_p1 {| citetrail_mapping := ∅ |}
                  {| citetrail_mapping := ∅ |}) TypeError).
  exists sample_div1, []. split; [vm_compute; reflexivity|].
  right. split; [vm_compute; reflexivity|reflexivity].
Defined.

Lemma make_citetrail_prefix_witness :
  exists s,
    make_citetrail DictConfig
      (DocAnalysis := GuidelinesAnalysis_DocAnalysis
                        DictConfig dict_get_citetrail_mapping)
      Guidelines sample_p1 sample_config
    = (Ok (PyStr s), sample_config)
    /\ String.prefix "1" s = true
    /\ (String.length "1" + 2 <= String.length s)%nat.
Proof.
  apply (make_citetrail_prefix DictConfig dict_get_citetrail_mapping
           sample_p1 sample_div1 [] "1" sample_config sample_config).
  - vm_compute. reflexivity.
  - vm_compute. reflexivity.
Defined.

Lemma sibling_citetrails_differ_witness : "1.1" <> "1.3".
Proof.
  apply (sibling_citetrails_differ DictConfig dict_get_citetrail_mapping
           sample_head sample_p2 sample_config sample_config sample_config).
  - vm_compute. right. right. left. reflexivity.
  - vm_compute. reflexivity.
  - vm_compute. reflexivity.
  - vm_compute. reflexivity.
Defined.
